(** * lightspeed-stack: session identifiers and rlsapi v1 request models

    A shallow embedding of [src/utils/suid.py] and
    [src/models/rlsapi/requests.py], with the parts of the Python runtime
    and of pydantic that these two files call, followed by the properties
    proved about them.

    Python strings are sequences of Unicode code points: a character is its
    code point, a string the list of its characters. *)

From Stdlib Require Import String Ascii.
From Stdlib.Strings Require Import Byte.
From Stdlib Require Import List NArith ZArith Bool Lia.
Import ListNotations.

Local Open Scope N_scope.
Local Open Scope list_scope.

Abbreviation char := N (only parsing).
Definition str := list char.

(** A string literal of the source, as the list of its code points. *)
Definition py (s : string) : str := map N_of_ascii (list_ascii_of_string s).
Arguments py s%_string.

Fixpoint str_eqb (a b : str) : bool :=
  match a, b with
  | [], [] => true
  | x :: a', y :: b' => (x =? y) && str_eqb a' b'
  | _, _ => false
  end.

(** Comparisons of characters, as propositions for [lia]. *)
Ltac char_lia :=
  repeat match goal with
  | H : _ && _ = true |- _ => apply andb_true_iff in H; destruct H
  | H : _ || _ = false |- _ => apply orb_false_iff in H; destruct H
  | H : _ || _ = true |- _ => apply orb_true_iff in H; destruct H
  | H : _ && _ = false |- _ => apply andb_false_iff in H; destruct H
  | H : (_ <=? _) = true |- _ => apply N.leb_le in H
  | H : (_ <=? _) = false |- _ => apply N.leb_gt in H
  | H : (_ <? _) = true |- _ => apply N.ltb_lt in H
  | H : (_ <? _) = false |- _ => apply N.ltb_ge in H
  | H : (_ =? _) = true |- _ => apply N.eqb_eq in H
  | H : (_ =? _) = false |- _ => apply N.eqb_neq in H
  end; try lia.

(** ** Exceptions

    A call either returns or raises; [try ... except] is [try_except]. *)

Inductive exception :=
| ValueError (msg : str)
| TypeError (msg : str).

Inductive exn (A : Type) :=
| Return (a : A)
| Raise (e : exception).
Arguments Return {A} a.
Arguments Raise {A} e.

Definition bind {A B} (m : exn A) (k : A -> exn B) : exn B :=
  match m with
  | Return a => k a
  | Raise e => Raise e
  end.

Notation "x <- m ;; k" := (bind m (fun x => k))
  (at level 61, m at next level, right associativity).

(** [try: body except <classes>: handler], the classes given as a test. *)
Definition try_except {A} (body : exn A) (catches : exception -> bool)
    (handler : exn A) : exn A :=
  match body with
  | Return a => Return a
  | Raise e => if catches e then handler else Raise e
  end.

Definition is_ValueError (e : exception) : bool :=
  match e with ValueError _ => true | _ => false end.

Definition is_ValueError_or_TypeError (e : exception) : bool :=
  match e with ValueError _ | TypeError _ => true end.

Definition returns {A} (m : exn A) : bool :=
  match m with Return _ => true | Raise _ => false end.

(** ** Python values

    What a caller may pass where the code tests [isinstance(_, str)], and
    what a decoded JSON payload is made of. *)

#[warning="-register-all"]
Inductive value :=
| PyNone
| PyBool (b : bool)
| PyInt (z : Z)
| PyStr (s : str)
| PyList (l : list value)
| PyDict (d : list (str * value)).

Definition isinstance_str (v : value) : bool :=
  match v with PyStr _ => true | _ => false end.

(** ** The Unicode character database

    [str.strip()] and [str.isspace()] use [_PyUnicode_IsWhitespace], a fixed
    list in CPython.  The decimal digits of the database
    ([Py_UNICODE_TODECIMAL], the characters of category Nd) vary with the
    Unicode version the interpreter was built with: they are a parameter. *)

Definition Py_UNICODE_ISSPACE (c : char) : bool :=
  ((0x09 <=? c) && (c <=? 0x0D)) || ((0x1C <=? c) && (c <=? 0x20))
  || (c =? 0x85) || (c =? 0xA0) || (c =? 0x1680)
  || ((0x2000 <=? c) && (c <=? 0x200A))
  || (c =? 0x2028) || (c =? 0x2029) || (c =? 0x202F) || (c =? 0x205F)
  || (c =? 0x3000).

Inductive decimal_digit := D0 | D1 | D2 | D3 | D4 | D5 | D6 | D7 | D8 | D9.

Definition decimal_value (d : decimal_digit) : N :=
  match d with
  | D0 => 0 | D1 => 1 | D2 => 2 | D3 => 3 | D4 => 4
  | D5 => 5 | D6 => 6 | D7 => 7 | D8 => 8 | D9 => 9
  end.

Class UnicodeData := { Py_UNICODE_TODECIMAL : char -> option decimal_digit }.

(** The decimal digits every version of the database has below U+0080;
    used to run the model on ASCII inputs. *)
Definition ascii_decimal (c : char) : option decimal_digit :=
  match c - 48 with
  | 0 => if 48 <=? c then Some D0 else None
  | 1 => Some D1 | 2 => Some D2 | 3 => Some D3 | 4 => Some D4 | 5 => Some D5
  | 6 => Some D6 | 7 => Some D7 | 8 => Some D8 | 9 => Some D9
  | _ => None
  end.

Definition ascii_only : UnicodeData := {| Py_UNICODE_TODECIMAL := ascii_decimal |}.

(** ** Methods of [str] *)

Module Py.

(** [s.startswith(prefix)] *)
Fixpoint startswith (s prefix : str) {struct prefix} : bool :=
  match prefix with
  | [] => true
  | p :: prefix' =>
      match s with
      | [] => false
      | c :: s' => (c =? p) && startswith s' prefix'
      end
  end.

(** [s[i:]] and [s[i:j]] for indices that are not negative. *)
Definition slice_from (i : nat) (s : str) : str := skipn i s.
Definition slice (i j : nat) (s : str) : str := firstn (j - i) (skipn i s).

Fixpoint lstrip_by (drop : char -> bool) (s : str) : str :=
  match s with
  | [] => []
  | c :: s' => if drop c then lstrip_by drop s' else s
  end.

Definition rstrip_by (drop : char -> bool) (s : str) : str :=
  rev (lstrip_by drop (rev s)).

(** [s.strip()]: whitespace removed at both ends. *)
Definition strip (s : str) : str :=
  rstrip_by Py_UNICODE_ISSPACE (lstrip_by Py_UNICODE_ISSPACE s).

Definition mem (c : char) (chars : str) : bool := existsb (N.eqb c) chars.

(** [s.strip(chars)]: the characters of [chars] removed at both ends. *)
Definition strip_chars (chars s : str) : str :=
  rstrip_by (fun c => mem c chars) (lstrip_by (fun c => mem c chars) s).

(** [s.replace(old, new)]: the occurrences of [old] found from left to
    right, none overlapping another; [skip] counts the characters of an
    occurrence still to pass over. *)
Fixpoint replace_from (old new : str) (skip : nat) (s : str) : str :=
  match s with
  | [] => match skip, old with O, [] => new | _, _ => [] end
  | c :: s' =>
      match skip with
      | S k => replace_from old new k s'
      | O =>
          if startswith s old then
            match old with
            | [] => new ++ c :: replace_from old new 0 s'
            | _ :: old' => new ++ replace_from old new (length old') s'
            end
          else c :: replace_from old new 0 s'
      end
  end.

Definition replace (old new s : str) : str := replace_from old new 0 s.

(** [sep.join(parts)] *)
Fixpoint join (sep : str) (parts : list str) : str :=
  match parts with
  | [] => []
  | [p] => p
  | p :: rest => p ++ sep ++ join sep rest
  end.

(** *** [int(s, 16)]

    [PyLong_FromUnicodeObject]: the string is first rewritten to ASCII
    ([_PyUnicode_TransformDecimalAndSpaceToASCII]), then read by
    [PyLong_FromString] with base 16. *)

Section Int.
Context {unicode : UnicodeData}.

(** The loop of the transformation: characters below 127 stay; whitespace
    becomes a space and a decimal digit its ASCII digit; at any other
    character a [?] is written and the rest dropped. *)
Fixpoint transform_loop (s : str) : str :=
  match s with
  | [] => []
  | ch :: s' =>
      if ch <? 127 then ch :: transform_loop s'
      else if Py_UNICODE_ISSPACE ch then 32 :: transform_loop s'
      else
        match Py_UNICODE_TODECIMAL ch with
        | Some d => (48 + decimal_value d) :: transform_loop s'
        | None => [63]
        end
  end.

(** [PyUnicode_IS_ASCII]: every character is below 128. *)
Definition IS_ASCII (s : str) : bool := forallb (fun ch => ch <? 128) s.

(** A string that is already ASCII is returned as it is. *)
Definition TransformDecimalAndSpaceToASCII (s : str) : str :=
  if IS_ASCII s then s else transform_loop s.

(** [Py_ISSPACE] of the C locale. *)
Definition Py_ISSPACE (c : char) : bool :=
  ((0x09 <=? c) && (c <=? 0x0D)) || (c =? 0x20).

(** [_PyLong_DigitValue]: 37 for a character that is no digit in any base. *)
Definition PyLong_DigitValue (c : char) : N :=
  if (48 <=? c) && (c <=? 57) then c - 48
  else if (97 <=? c) && (c <=? 122) then c - 87
  else if (65 <=? c) && (c <=? 90) then c - 55
  else 37.

(** The loop over digits and underscores: [prev] is the character before,
    [acc] the value read so far.  The result is the value and what is left
    of the buffer, or [None] at a doubled or trailing underscore. *)
Fixpoint scan_digits (base : N) (prev : char) (acc : Z) (s : str)
    : option (Z * str) :=
  match s with
  | [] => if prev =? 95 then None else Some (acc, [])
  | c :: s' =>
      if c =? 95 then
        if prev =? 95 then None else scan_digits base c acc s'
      else if PyLong_DigitValue c <? base then
        scan_digits base c (Z.of_N base * acc + Z.of_N (PyLong_DigitValue c))%Z s'
      else if prev =? 95 then None else Some (acc, s)
  end.

Definition invalid_literal : exception :=
  ValueError (py "invalid literal for int() with base 16").

(** [*str == c] on the buffer that [str] points into. *)
Definition at_char (c : char) (s : str) : bool :=
  match s with
  | x :: _ => x =? c
  | [] => false
  end.

Definition PyLong_FromString_16 (buffer : str) : exn Z :=
  let s := lstrip_by Py_ISSPACE buffer in
  let sign := if at_char 45 s then (-1)%Z else 1%Z in
  let s := if at_char 43 s || at_char 45 s then tl s else s in
  let s :=
    if at_char 48 s && (at_char 120 (tl s) || at_char 88 (tl s)) then
      let s := tl (tl s) in
      if at_char 95 s then tl s else s
    else s in
  if at_char 95 s then Raise invalid_literal
  else
    match scan_digits 16 0 0%Z s with
    | None => Raise invalid_literal
    | Some (z, rest) =>
        if Nat.eqb (length rest) (length s) then Raise invalid_literal
        else
          match lstrip_by Py_ISSPACE rest with
          | [] => Return (sign * z)%Z
          | _ :: _ => Raise invalid_literal
          end
    end.

Definition int_16 (s : str) : exn Z :=
  PyLong_FromString_16 (TransformDecimalAndSpaceToASCII s).

End Int.

End Py.

(** ** The [uuid] module of the standard library (as in CPython 3.12) *)

Module Uuid.

Record UUID := { int : Z }.

(** *** ['%032x' % n] *)

Definition hexdigit (d : N) : char := if d <? 10 then 48 + d else 87 + d.

(** The digits of [n] in base 16, most significant first. *)
Fixpoint hex_digits (fuel : nat) (n : N) : str :=
  match fuel with
  | O => []
  | S fuel' =>
      if n <? 16 then [hexdigit n]
      else hex_digits fuel' (n / 16) ++ [hexdigit (n mod 16)]
  end.

(** Exactly [k] digits of [n], the least significant last. *)
Fixpoint fixed_hex (k : nat) (n : N) : str :=
  match k with
  | O => []
  | S k' => fixed_hex k' (n / 16) ++ [hexdigit (n mod 16)]
  end.

Definition format_x (n : N) : str := hex_digits (S (N.to_nat (N.log2 n))) n.

Definition zfill (width : nat) (s : str) : str :=
  repeat 48 (width - length s) ++ s.

Definition format_032x (n : Z) : str :=
  if (n <? 0)%Z then 45 :: zfill 31 (format_x (Z.abs_N n))
  else zfill 32 (format_x (Z.abs_N n)).

(** [int.from_bytes(b)], big endian. *)
Definition from_bytes (b : list byte) : Z :=
  fold_left (fun acc x => (acc * 256 + Z.of_N (Byte.to_N x))%Z) b 0%Z.

Definition in_range (n : Z) : bool := ((0 <=? n) && (n <? Z.shiftl 1 128))%Z.

Definition out_of_range : exception :=
  ValueError (py "int is out of range (need a 128-bit value)").

(** [UUID(bytes=b, version=v)] *)
Definition UUID_of_bytes (b : list byte) (version : Z) : exn UUID :=
  if negb (Nat.eqb (length b) 16) then
    Raise (ValueError (py "bytes is not a 16-char string"))
  else
    let n := from_bytes b in
    if negb (in_range n) then Raise out_of_range
    else if negb ((1 <=? version) && (version <=? 5))%Z then
      Raise (ValueError (py "illegal version number"))
    else
      let n := Z.land n (Z.lnot (Z.shiftl 0xc000 48)) in
      let n := Z.lor n (Z.shiftl 0x8000 48) in
      let n := Z.land n (Z.lnot (Z.shiftl 0xf000 64)) in
      let n := Z.lor n (Z.shiftl version 76) in
      Return {| int := n |}.

(** [uuid4()], the sixteen bytes of [os.urandom(16)] given. *)
Definition uuid4 (urandom : list byte) : exn UUID := UUID_of_bytes urandom 4.

(** [str(u)] *)
Definition to_str (u : UUID) : str :=
  let hex := format_032x (int u) in
  Py.slice 0 8 hex ++ py "-" ++ Py.slice 8 12 hex ++ py "-"
  ++ Py.slice 12 16 hex ++ py "-" ++ Py.slice 16 20 hex ++ py "-"
  ++ Py.slice_from 20 hex.

Section Hex.
Context {unicode : UnicodeData}.

(** What [UUID(hex)] keeps of its argument before reading it as a number. *)
Definition hex_payload (hex : str) : str :=
  let hex := Py.replace (py "uuid:") [] (Py.replace (py "urn:") [] hex) in
  Py.replace (py "-") [] (Py.strip_chars (py "{}") hex).

(** [UUID(hex)] *)
Definition UUID_of_hex (hex : str) : exn UUID :=
  let hex := hex_payload hex in
  if negb (Nat.eqb (length hex) 32) then
    Raise (ValueError (py "badly formed hexadecimal UUID string"))
  else
    n <- Py.int_16 hex ;;
    if negb (in_range n) then Raise out_of_range
    else Return {| int := n |}.

End Hex.

End Uuid.

(** ** [src/utils/suid.py] *)

Module Suid.

Section Suid.
Context {unicode : UnicodeData}.

(** [get_suid()], the bytes the random source hands to [uuid.uuid4] given. *)
Definition get_suid (urandom : list byte) : exn str :=
  u <- Uuid.uuid4 urandom ;;
  Return (Uuid.to_str u).

Definition check_suid (suid : value) : exn bool :=
  match suid with
  | PyStr s =>
      let hex_part :=
        if Py.startswith s (py "conv_") then Py.slice_from 5 s else s in
      if Nat.eqb (length hex_part) 48 then
        try_except (_ <- Py.int_16 hex_part ;; Return true)
          is_ValueError (Return false)
      else
        try_except (_ <- Uuid.UUID_of_hex s ;; Return true)
          is_ValueError_or_TypeError (Return false)
  | _ => Return false
  end.

End Suid.

Definition normalize_conversation_id (conversation_id : str) : str :=
  if Py.startswith conversation_id (py "conv_")
  then Py.slice_from 5 conversation_id
  else conversation_id.

Definition to_llama_stack_conversation_id (conversation_id : str) : str :=
  if negb (Py.startswith conversation_id (py "conv_"))
  then py "conv_" ++ conversation_id
  else conversation_id.

End Suid.

(** ** The identifier formats, as the specification words them *)

Definition is_lower_hex (c : char) : bool :=
  ((48 <=? c) && (c <=? 57)) || ((97 <=? c) && (c <=? 102)).

Definition is_hex (c : char) : bool :=
  is_lower_hex c || ((65 <=? c) && (c <=? 70)).

(** Groups of digits of the given sizes, a hyphen between two groups. *)
Fixpoint hyphenated (digit : char -> bool) (sizes : list nat) (s : str) : bool :=
  match sizes with
  | [] => false
  | [n] => Nat.eqb (length s) n && forallb digit s
  | n :: sizes' =>
      Nat.eqb (length (firstn n s)) n && forallb digit (firstn n s)
      && match skipn n s with
         | c :: s' => (c =? 45) && hyphenated digit sizes' s'
         | [] => false
         end
  end.

Definition not_hyphen (c : char) : bool := negb (c =? 45).

(** The canonical text of a UUID: 8-4-4-4-12 hexadecimal digits. *)
Definition is_canonical_uuid (s : str) : bool := hyphenated is_hex [8; 4; 4; 4; 12]%nat s.

(** The same in lowercase, with the version digit 4 and the variant of
    RFC 4122: what [uuid.uuid4] renders. *)
Definition is_canonical_uuid4 (s : str) : bool :=
  hyphenated is_lower_hex [8; 4; 4; 4; 12]%nat s
  && (nth 14 s 0 =? 52)
  && existsb (N.eqb (nth 19 s 0)) [56; 57; 97; 98].

(** ** pydantic: validation of a model from a dictionary

    Only what the request models use: string and boolean fields in lax
    mode, nested models, defaults, an alias, a length constraint and an
    after-validator.  Every model of the repository inherits from
    [ConfigurationBase] (module [models.config]); of the configuration it
    carries, the two settings that decide how the keys of the input are
    matched to fields are parameters here. *)

Module Pydantic.

Inductive extra_behavior := extra_allow | extra_ignore | extra_forbid.

Record ConfigDict := {
  extra : extra_behavior;
  populate_by_name : bool
}.

(** What pydantic does when a model sets neither. *)
Definition pydantic_defaults : ConfigDict :=
  {| extra := extra_ignore; populate_by_name := false |}.

Inductive error_type :=
| missing
| string_type
| string_unicode
| string_too_short
| bool_type
| bool_parsing
| model_type
| extra_forbidden
| value_error (msg : str).

Record ErrorDetails := { loc : list str; type_ : error_type }.

(** The outcome of a validation: the value, the errors of a
    [ValidationError], or an exception of a validator that pydantic lets
    through. *)
Inductive result (A : Type) :=
| Valid (a : A)
| Invalid (errors : list ErrorDetails)
| Uncaught (e : exception).
Arguments Valid {A} a.
Arguments Invalid {A} errors.
Arguments Uncaught {A} e.

Definition errors_of {A} (r : result A) : list ErrorDetails :=
  match r with Invalid errors => errors | _ => [] end.

(** Fields are validated one after the other and their errors collected. *)
Definition ap {A B} (f : result (A -> B)) (x : result A) : result B :=
  match f, x with
  | Uncaught e, _ => Uncaught e
  | _, Uncaught e => Uncaught e
  | Valid g, Valid a => Valid (g a)
  | Valid _, Invalid e => Invalid e
  | Invalid e, Valid _ => Invalid e
  | Invalid e1, Invalid e2 => Invalid (e1 ++ e2)
  end.

Notation "f <*> x" := (ap f x) (at level 50, left associativity).

Definition at_loc {A} (key : str) (r : result A) : result A :=
  match r with
  | Invalid errors =>
      Invalid (map (fun e => {| loc := key :: loc e; type_ := type_ e |}) errors)
  | _ => r
  end.

Definition fail {A} (t : error_type) : result A :=
  Invalid [{| loc := []; type_ := t |}].

Definition dict := list (str * value).

Fixpoint dict_get (d : dict) (key : str) : option value :=
  match d with
  | [] => None
  | (k, v) :: d' => if str_eqb k key then Some v else dict_get d' key
  end.

(** The key a field is read from: its alias, or its name when it has no
    alias or the model is populated by name. *)
Definition lookup (cfg : ConfigDict) (name : str) (alias : option str)
    (d : dict) : option (str * value) :=
  match alias with
  | None => option_map (pair name) (dict_get d name)
  | Some a =>
      match dict_get d a with
      | Some v => Some (a, v)
      | None =>
          if populate_by_name cfg
          then option_map (pair name) (dict_get d name)
          else None
      end
  end.

(** A field of a model: the key it used, if any, and its outcome. *)
Definition field {A} (cfg : ConfigDict) (name : str) (alias : option str)
    (schema : value -> result A) (default : option A) (d : dict)
    : option str * result A :=
  match lookup cfg name alias d with
  | Some (k, v) => (Some k, at_loc k (schema v))
  | None =>
      (None,
       match default with
       | Some a => Valid a
       | None =>
           at_loc (match alias with Some a => a | None => name end) (fail missing)
       end)
  end.

Definition is_used (used : list (option str)) (k : str) : bool :=
  existsb (fun u => match u with Some k' => str_eqb k k' | None => false end) used.

(** The keys of the input that no field used. *)
Definition extra_errors (cfg : ConfigDict) (used : list (option str))
    (d : dict) : list ErrorDetails :=
  match extra cfg with
  | extra_forbid =>
      map (fun k => {| loc := [k]; type_ := extra_forbidden |})
        (filter (fun k => negb (is_used used k)) (map fst d))
  | _ => []
  end.

Definition finish {A} (cfg : ConfigDict) (used : list (option str))
    (d : dict) (r : result A) : result A :=
  match r, extra_errors cfg used d with
  | Uncaught e, _ => Uncaught e
  | Valid a, [] => Valid a
  | _, errors => Invalid (errors_of r ++ errors)
  end.

(** [str] *)
Definition str_schema (v : value) : result str :=
  match v with
  | PyStr s => Valid s
  | _ => fail string_type
  end.

(** A surrogate code point: a Python string may hold one alone, UTF-8
    text may not. *)
Definition is_surrogate (c : char) : bool := (0xD800 <=? c) && (c <=? 0xDFFF).

(** [str] with [min_length]: a constrained string is read as UTF-8 before
    its length is measured. *)
Definition str_min_length (n : nat) (v : value) : result str :=
  match str_schema v with
  | Valid s =>
      if existsb is_surrogate s then fail string_unicode
      else if Nat.ltb (length s) n then fail string_too_short
      else Valid s
  | r => r
  end.

Definition ascii_lower (c : char) : char :=
  if (65 <=? c) && (c <=? 90) then c + 32 else c.

Definition str_as_bool (s : str) : result bool :=
  let l := map ascii_lower s in
  if str_eqb s (py "0") || existsb (str_eqb l)
       [py "f"; py "n"; py "no"; py "off"; py "false"]
  then Valid false
  else if str_eqb s (py "1") || existsb (str_eqb l)
       [py "t"; py "y"; py "on"; py "yes"; py "true"]
  then Valid true
  else fail bool_parsing.

(** [bool], lax *)
Definition bool_schema (v : value) : result bool :=
  match v with
  | PyBool b => Valid b
  | PyStr s => str_as_bool s
  | PyInt 0 => Valid false
  | PyInt 1 => Valid true
  | PyInt _ => fail bool_parsing
  | _ => fail bool_type
  end.

(** A nested model: a dictionary is validated as the model. *)
Definition model_schema {A} (validate : dict -> result A) (v : value)
    : result A :=
  match v with
  | PyDict d => validate d
  | _ => fail model_type
  end.

(** [@field_validator], mode after: runs on the validated value; a
    [ValueError] it raises becomes an error of the field. *)
Definition function_after {A B} (schema : value -> result A)
    (validator : A -> exn B) (v : value) : result B :=
  match schema v with
  | Valid a =>
      match validator a with
      | Return b => Valid b
      | Raise (ValueError msg) => fail (value_error msg)
      | Raise e => Uncaught e
      end
  | Invalid errors => Invalid errors
  | Uncaught e => Uncaught e
  end.

(** The validation ended in a value or in a [ValidationError]. *)
Definition caught {A} (r : result A) : Prop := forall e, r <> Uncaught e.

(** Whether a [ValidationError] carries the message [msg] of a validator. *)
Definition carries_message (msg : str) (errors : list ErrorDetails) : bool :=
  existsb (fun e => match type_ e with
                    | value_error m => str_eqb m msg
                    | _ => false
                    end) errors.

End Pydantic.

(** ** [src/models/rlsapi/requests.py] *)

Module Requests.
Import Pydantic.

Record RlsapiV1Attachment := { contents : str; mimetype : str }.

Record RlsapiV1Terminal := { output : str }.

Record RlsapiV1SystemInfo := {
  os : str;
  version : str;
  arch : str;
  system_id : str
}.

(** The field [version] of the class is [cla_version] here. *)
Record RlsapiV1CLA := { nevra : str; cla_version : str }.

Record RlsapiV1Context := {
  stdin : str;
  attachments : RlsapiV1Attachment;
  terminal : RlsapiV1Terminal;
  systeminfo : RlsapiV1SystemInfo;
  cla : RlsapiV1CLA
}.

Record RlsapiV1InferRequest := {
  question : str;
  context : RlsapiV1Context;
  skip_rag : bool
}.

Section Models.
Variable cfg : ConfigDict.

Definition Attachment_validate (d : dict) : result RlsapiV1Attachment :=
  let f_contents := field cfg (py "contents") None str_schema (Some []) d in
  let f_mimetype := field cfg (py "mimetype") None str_schema (Some []) d in
  finish cfg [fst f_contents; fst f_mimetype] d
    (Valid Build_RlsapiV1Attachment <*> snd f_contents <*> snd f_mimetype).

Definition Terminal_validate (d : dict) : result RlsapiV1Terminal :=
  let f_output := field cfg (py "output") None str_schema (Some []) d in
  finish cfg [fst f_output] d (Valid Build_RlsapiV1Terminal <*> snd f_output).

Definition SystemInfo_validate (d : dict) : result RlsapiV1SystemInfo :=
  let f_os := field cfg (py "os") None str_schema (Some []) d in
  let f_version := field cfg (py "version") None str_schema (Some []) d in
  let f_arch := field cfg (py "arch") None str_schema (Some []) d in
  let f_system_id :=
    field cfg (py "system_id") (Some (py "id")) str_schema (Some []) d in
  finish cfg [fst f_os; fst f_version; fst f_arch; fst f_system_id] d
    (Valid Build_RlsapiV1SystemInfo <*> snd f_os <*> snd f_version
       <*> snd f_arch <*> snd f_system_id).

Definition CLA_validate (d : dict) : result RlsapiV1CLA :=
  let f_nevra := field cfg (py "nevra") None str_schema (Some []) d in
  let f_version := field cfg (py "version") None str_schema (Some []) d in
  finish cfg [fst f_nevra; fst f_version] d
    (Valid Build_RlsapiV1CLA <*> snd f_nevra <*> snd f_version).

(** [RlsapiV1Attachment()] and the like: the default factories. *)
Definition Attachment_default : RlsapiV1Attachment :=
  {| contents := []; mimetype := [] |}.
Definition Terminal_default : RlsapiV1Terminal := {| output := [] |}.
Definition SystemInfo_default : RlsapiV1SystemInfo :=
  {| os := []; version := []; arch := []; system_id := [] |}.
Definition CLA_default : RlsapiV1CLA := {| nevra := []; cla_version := [] |}.

Definition Context_validate (d : dict) : result RlsapiV1Context :=
  let f_stdin := field cfg (py "stdin") None str_schema (Some []) d in
  let f_attachments :=
    field cfg (py "attachments") None (model_schema Attachment_validate)
      (Some Attachment_default) d in
  let f_terminal :=
    field cfg (py "terminal") None (model_schema Terminal_validate)
      (Some Terminal_default) d in
  let f_systeminfo :=
    field cfg (py "systeminfo") None (model_schema SystemInfo_validate)
      (Some SystemInfo_default) d in
  let f_cla :=
    field cfg (py "cla") None (model_schema CLA_validate)
      (Some CLA_default) d in
  finish cfg
    [fst f_stdin; fst f_attachments; fst f_terminal; fst f_systeminfo; fst f_cla]
    d
    (Valid Build_RlsapiV1Context <*> snd f_stdin <*> snd f_attachments
       <*> snd f_terminal <*> snd f_systeminfo <*> snd f_cla).

Definition Context_default : RlsapiV1Context :=
  {| stdin := []; attachments := Attachment_default;
     terminal := Terminal_default; systeminfo := SystemInfo_default;
     cla := CLA_default |}.

Definition question_message : str :=
  py "Question cannot be empty or whitespace-only".

Definition validate_question (v : str) : exn str :=
  let stripped := Py.strip v in
  match stripped with
  | [] => Raise (ValueError question_message)
  | _ :: _ => Return stripped
  end.

(** The construction of an [RlsapiV1InferRequest] from the dictionary [d]. *)
Definition InferRequest_validate (d : dict) : result RlsapiV1InferRequest :=
  let f_question :=
    field cfg (py "question") None
      (function_after (str_min_length 1) validate_question) None d in
  let f_context :=
    field cfg (py "context") None (model_schema Context_validate)
      (Some Context_default) d in
  let f_skip_rag := field cfg (py "skip_rag") None bool_schema (Some false) d in
  finish cfg [fst f_question; fst f_context; fst f_skip_rag] d
    (Valid Build_RlsapiV1InferRequest <*> snd f_question <*> snd f_context
       <*> snd f_skip_rag).

End Models.

(** Python's truth value of a string. *)
Definition truthy (s : str) : bool :=
  match s with [] => false | _ :: _ => true end.

Definition get_input_source (self : RlsapiV1InferRequest) : str :=
  let sources := [] in
  let sources := sources ++ [question self] in
  let sources :=
    if truthy (stdin (context self))
    then sources ++ [stdin (context self)] else sources in
  let sources :=
    if truthy (contents (attachments (context self)))
    then sources ++ [contents (attachments (context self))] else sources in
  let sources :=
    if truthy (output (terminal (context self)))
    then sources ++ [output (terminal (context self))] else sources in
  Py.join [10; 10] sources.

(** An inbound payload with every key present. *)
Definition full_payload (q stdin_ contents_ mimetype_ output_ os_ version_
    arch_ id_ nevra_ cla_version_ : str) (skip_rag_ : bool) : dict :=
  [(py "question", PyStr q);
   (py "context", PyDict
      [(py "stdin", PyStr stdin_);
       (py "attachments", PyDict
          [(py "contents", PyStr contents_); (py "mimetype", PyStr mimetype_)]);
       (py "terminal", PyDict [(py "output", PyStr output_)]);
       (py "systeminfo", PyDict
          [(py "os", PyStr os_); (py "version", PyStr version_);
           (py "arch", PyStr arch_); (py "id", PyStr id_)]);
       (py "cla", PyDict
          [(py "nevra", PyStr nevra_); (py "version", PyStr cla_version_)])]);
   (py "skip_rag", PyBool skip_rag_)].

(** The combined input as the specification words it: the question, then
    each context source that is not empty, after a blank line. *)
Definition segment (source : str) : str :=
  match source with
  | [] => []
  | _ :: _ => [10; 10] ++ source
  end.

Definition combinedInput (r : RlsapiV1InferRequest) : str :=
  question r ++ segment (stdin (context r))
  ++ segment (contents (attachments (context r)))
  ++ segment (output (terminal (context r))).

End Requests.

(** * Properties *)

(** ** Strings *)

Lemma str_eqb_eq (a b : str) : str_eqb a b = true <-> a = b.
Proof.
  revert b; induction a as [|x a IH]; intros [|y b]; simpl;
    try (split; [discriminate | congruence]); try tauto.
  rewrite andb_true_iff, N.eqb_eq, IH.
  split; [intros [-> ->]; reflexivity | intros H; inversion H; auto].
Qed.

Lemma str_eqb_refl (a : str) : str_eqb a a = true.
Proof. apply str_eqb_eq; reflexivity. Qed.

Lemma startswith_app (p s : str) : Py.startswith (p ++ s) p = true.
Proof.
  induction p as [|c p IH]; simpl; [reflexivity|].
  now rewrite N.eqb_refl, IH.
Qed.

Lemma startswith_split (s p : str) :
  Py.startswith s p = true -> s = p ++ Py.slice_from (length p) s.
Proof.
  revert s; induction p as [|c p IH]; intros s H; simpl in *; [reflexivity|].
  destruct s as [|x s]; [discriminate|].
  apply andb_true_iff in H as [Hc Hp]. apply N.eqb_eq in Hc. subst x.
  f_equal. apply IH, Hp.
Qed.

Lemma slice_from_app (p s : str) : Py.slice_from (length p) (p ++ s) = s.
Proof. unfold Py.slice_from. induction p; simpl; auto. Qed.

(** ** Conversation identifiers: [normalize_conversation_id] and
    [to_llama_stack_conversation_id] *)

Section ConversationId.
Import Suid.

Lemma to_llama_stack_startswith (x : str) :
  Py.startswith (to_llama_stack_conversation_id x) (py "conv_") = true.
Proof.
  unfold to_llama_stack_conversation_id.
  destruct (Py.startswith x (py "conv_")) eqn:E; cbn [negb];
    [exact E | apply startswith_app].
Qed.

Lemma normalize_prefixed (x : str) :
  normalize_conversation_id (py "conv_" ++ x) = x.
Proof.
  unfold normalize_conversation_id.
  rewrite startswith_app. exact (slice_from_app (py "conv_") x).
Qed.

(** C5. For every identifier [x] that does not begin with [conv_],
    normalizing the external form of [x] gives [x] back:
    [normalize_conversation_id (to_llama_stack_conversation_id x) = x]. *)
Theorem normalize_to_llama_stack (x : str) :
  Py.startswith x (py "conv_") = false ->
  normalize_conversation_id (to_llama_stack_conversation_id x) = x.
Proof.
  intros H. unfold to_llama_stack_conversation_id. rewrite H. simpl negb. cbv iota.
  apply normalize_prefixed.
Qed.

Lemma normalize_to_llama_stack_witness :
  Py.startswith (py "550e8400-e29b-41d4-a716-446655440000") (py "conv_") = false
  /\ normalize_conversation_id
       (to_llama_stack_conversation_id (py "550e8400-e29b-41d4-a716-446655440000"))
     = py "550e8400-e29b-41d4-a716-446655440000".
Proof.
  split; [reflexivity|].
  apply (normalize_to_llama_stack (py "550e8400-e29b-41d4-a716-446655440000")).
  reflexivity.
Defined.

(** C8. [to_llama_stack_conversation_id] is idempotent, and its result
    always begins with [conv_]. *)
Theorem to_llama_stack_idempotent (x : str) :
  to_llama_stack_conversation_id (to_llama_stack_conversation_id x)
  = to_llama_stack_conversation_id x
  /\ Py.startswith (to_llama_stack_conversation_id x) (py "conv_") = true.
Proof.
  split; [|apply to_llama_stack_startswith].
  unfold to_llama_stack_conversation_id at 1.
  now rewrite to_llama_stack_startswith.
Qed.

End ConversationId.

(** ** Validation outcomes *)

Section ValidationFacts.
Import Pydantic.

Lemma caught_Valid {A} (a : A) : caught (Valid a).
Proof. intros e; discriminate. Qed.

Lemma caught_Invalid {A} (errors : list ErrorDetails) : caught (@Invalid A errors).
Proof. intros e; discriminate. Qed.

Lemma caught_fail {A} (t : error_type) : caught (@fail A t).
Proof. intros e; discriminate. Qed.

Lemma caught_ap {A B} (f : result (A -> B)) (x : result A) :
  caught f -> caught x -> caught (f <*> x).
Proof.
  intros Hf Hx e. destruct f as [g|e1|e1], x as [a|e2|e2]; simpl; try discriminate.
  all: try (exfalso; eapply Hf; reflexivity).
  all: exfalso; eapply Hx; reflexivity.
Qed.

Lemma caught_at_loc {A} (k : str) (r : result A) : caught r -> caught (at_loc k r).
Proof. intros H e. destruct r; simpl; try discriminate. intros _. eapply H; reflexivity. Qed.

Lemma caught_field {A} cfg name alias (schema : value -> result A) default d :
  (forall v, caught (schema v)) ->
  caught (snd (field cfg name alias schema default d)).
Proof.
  intros H. unfold field.
  destruct (lookup cfg name alias d) as [[k v]|]; simpl.
  - apply caught_at_loc, H.
  - destruct default; [apply caught_Valid | apply caught_Invalid].
Qed.

Lemma caught_finish {A} cfg used d (r : result A) :
  caught r -> caught (finish cfg used d r).
Proof.
  intros H e. unfold finish.
  destruct r; [destruct (extra_errors cfg used d) | | exfalso; eapply H; reflexivity];
    discriminate.
Qed.

Lemma caught_str_schema v : caught (str_schema v).
Proof. destruct v; simpl; intros e; discriminate. Qed.

Lemma caught_bool_schema v : caught (bool_schema v).
Proof.
  destruct v as [ |b|z|s|l|d]; simpl; try (intros e; discriminate).
  - destruct z as [|[p|p|]|p]; intros e; discriminate.
  - unfold str_as_bool.
    destruct (_ || _); [intros e; discriminate|].
    destruct (_ || _); intros e; discriminate.
Qed.

Lemma caught_model_schema {A} (validate : dict -> result A) v :
  (forall d, caught (validate d)) -> caught (model_schema validate v).
Proof. intros H. destruct v; simpl; try (intros e; discriminate). apply H. Qed.

Lemma finish_Valid_inv {A} cfg used d (r : result A) a :
  finish cfg used d r = Valid a -> r = Valid a.
Proof.
  unfold finish. destruct r; [destruct (extra_errors cfg used d)| |]; congruence.
Qed.

Lemma finish_Invalid {A} cfg used d errors :
  @finish A cfg used d (Invalid errors)
  = Invalid (errors ++ extra_errors cfg used d).
Proof. unfold finish. destruct (extra_errors cfg used d); reflexivity. Qed.

Lemma ap_Valid_inv {A B} (f : result (A -> B)) (x : result A) b :
  f <*> x = Valid b -> exists g a, f = Valid g /\ x = Valid a /\ b = g a.
Proof.
  destruct f as [g|e1|e1], x as [a|e2|e2]; simpl; try discriminate.
  intros H. injection H as <-. eauto.
Qed.

Lemma ap_Invalid_l {A B} errors (x : result A) :
  caught x -> exists more, @Invalid (A -> B) errors <*> x = Invalid (errors ++ more).
Proof.
  intros H. destruct x as [a|e2|e2]; simpl.
  - exists []. now rewrite app_nil_r.
  - eauto.
  - exfalso; eapply H; reflexivity.
Qed.

Lemma field_present {A} cfg name (schema : value -> result A) default d v :
  dict_get d name = Some v ->
  field cfg name None schema default d = (Some name, at_loc name (schema v)).
Proof. intros H. unfold field, lookup. now rewrite H. Qed.

Lemma field_absent {A} cfg name (schema : value -> result A) default d :
  dict_get d name = None ->
  field cfg name None schema default d
  = (None, match default with
           | Some a => Valid a
           | None => Invalid [{| loc := [name]; type_ := missing |}]
           end).
Proof. intros H. unfold field, lookup. now rewrite H. Qed.

End ValidationFacts.

Create HintDb caught.

#[local] Hint Resolve caught_Valid caught_Invalid caught_fail caught_ap
  caught_at_loc caught_field caught_finish caught_str_schema
  caught_bool_schema caught_model_schema : caught.

(** ** Request models *)

Section RequestFacts.
Import Pydantic Requests.

Lemma strip_nil : Py.strip [] = [].
Proof. reflexivity. Qed.

Lemma validate_question_spec (v : str) :
  validate_question v
  = match Py.strip v with
    | [] => Raise (ValueError question_message)
    | _ :: _ => Return (Py.strip v)
    end.
Proof. reflexivity. Qed.

(** The three outcomes of the [question] field on a string. *)
Lemma question_schema_empty :
  function_after (str_min_length 1) validate_question (PyStr [])
  = fail string_too_short.
Proof. reflexivity. Qed.

Lemma lstrip_by_nil f s : Py.lstrip_by f s = [] -> forallb f s = true.
Proof.
  induction s as [|c s IH]; simpl; [reflexivity|].
  destruct (f c); [exact IH | discriminate].
Qed.

Lemma lstrip_by_forallb f s :
  forallb f (Py.lstrip_by f s) = true -> forallb f s = true.
Proof.
  induction s as [|c s IH]; simpl; [reflexivity|].
  destruct (f c) eqn:E; [exact IH|]. simpl. now rewrite E.
Qed.

(** A string that trims to nothing is made of whitespace. *)
Lemma strip_nil_whitespace q :
  Py.strip q = [] -> forallb Py_UNICODE_ISSPACE q = true.
Proof.
  unfold Py.strip, Py.rstrip_by. intros H.
  apply lstrip_by_forallb.
  apply (f_equal (@rev N)) in H. rewrite rev_involutive in H. cbn [rev] in H.
  apply lstrip_by_nil in H.
  rewrite forallb_forall in H |- *. intros x Hx. apply H, in_rev.
  now rewrite rev_involutive.
Qed.

Lemma whitespace_no_surrogate q :
  forallb Py_UNICODE_ISSPACE q = true -> existsb is_surrogate q = false.
Proof.
  induction q as [|c q IH]; simpl; [reflexivity|].
  intros H. apply andb_true_iff in H as [Hc Hq]. rewrite (IH Hq), orb_false_r.
  unfold Py_UNICODE_ISSPACE in Hc. unfold is_surrogate.
  destruct ((55296 <=? c) && (c <=? 57343)) eqn:E; [exfalso|reflexivity].
  char_lia.
Qed.

Lemma question_schema_blank (q : str) :
  q <> [] -> Py.strip q = [] ->
  function_after (str_min_length 1) validate_question (PyStr q)
  = fail (value_error question_message).
Proof.
  intros Hq Hs.
  pose proof (whitespace_no_surrogate _ (strip_nil_whitespace _ Hs)) as U.
  destruct q as [|c q]; [congruence|].
  unfold function_after, str_min_length. cbn [str_schema]. rewrite U.
  cbn [length Nat.ltb Nat.leb].
  now rewrite validate_question_spec, Hs.
Qed.

Lemma question_schema_valid (q : str) :
  existsb is_surrogate q = false -> Py.strip q <> [] ->
  function_after (str_min_length 1) validate_question (PyStr q)
  = Valid (Py.strip q).
Proof.
  intros U Hs. destruct q as [|c q]; [now rewrite strip_nil in Hs|].
  unfold function_after, str_min_length. cbn [str_schema]. rewrite U.
  cbn [length Nat.ltb Nat.leb].
  rewrite validate_question_spec. destruct (Py.strip (c :: q)); congruence.
Qed.

Lemma question_schema_Valid_inv v a :
  function_after (str_min_length 1) validate_question v = Valid a ->
  exists q, v = PyStr q /\ a = Py.strip q /\ Py.strip q <> [].
Proof.
  unfold function_after, str_min_length.
  destruct v as [ |b|z|q|l|d]; try (simpl; discriminate).
  cbn [str_schema].
  destruct (existsb is_surrogate q); [discriminate|].
  destruct (Nat.ltb (length q) 1); [discriminate|].
  rewrite validate_question_spec.
  destruct (Py.strip q) as [|c s] eqn:E; [discriminate|].
  intros H. injection H as <-. exists q. rewrite E. repeat split. discriminate.
Qed.

Lemma caught_question_schema v :
  caught (function_after (str_min_length 1) validate_question v).
Proof.
  unfold function_after, str_min_length.
  destruct v as [ |b|z|q|l|d]; try (simpl; auto with caught; fail).
  cbn [str_schema].
  destruct (existsb is_surrogate q); [simpl; auto with caught|].
  destruct (Nat.ltb (length q) 1); [simpl; auto with caught|].
  rewrite validate_question_spec. destruct (Py.strip q); simpl; auto with caught.
Qed.

Lemma caught_Attachment cfg d : caught (Attachment_validate cfg d).
Proof. unfold Attachment_validate. auto 10 with caught. Qed.

Lemma caught_Terminal cfg d : caught (Terminal_validate cfg d).
Proof. unfold Terminal_validate. auto 10 with caught. Qed.

Lemma caught_SystemInfo cfg d : caught (SystemInfo_validate cfg d).
Proof. unfold SystemInfo_validate. auto 10 with caught. Qed.

Lemma caught_CLA cfg d : caught (CLA_validate cfg d).
Proof. unfold CLA_validate. auto 10 with caught. Qed.

Lemma caught_Context cfg d : caught (Context_validate cfg d).
Proof.
  unfold Context_validate.
  auto 12 using caught_Attachment, caught_Terminal, caught_SystemInfo, caught_CLA
    with caught.
Qed.

(** A request that was constructed holds the trimmed question. *)
Lemma InferRequest_Valid_question cfg d r :
  InferRequest_validate cfg d = Valid r ->
  exists q, dict_get d (py "question") = Some (PyStr q)
            /\ question r = Py.strip q /\ Py.strip q <> [].
Proof.
  unfold InferRequest_validate. intros H.
  apply finish_Valid_inv in H.
  apply ap_Valid_inv in H as (g2 & b & H & _ & ->).
  apply ap_Valid_inv in H as (g1 & c & H & _ & ->).
  apply ap_Valid_inv in H as (g0 & a & H0 & Hq & ->).
  injection H0 as <-. cbn [question].
  destruct (dict_get d (py "question")) as [v|] eqn:E.
  - rewrite (field_present _ _ _ _ _ _ E) in Hq. cbn [snd] in Hq.
    destruct (function_after _ _ v) eqn:Ev; simpl in Hq; try discriminate.
    injection Hq as ->.
    apply question_schema_Valid_inv in Ev as (q & -> & -> & Hne). eauto.
  - rewrite (field_absent _ _ _ _ _ E) in Hq. discriminate.
Qed.

(** A question field that fails makes the construction fail with its error. *)
Lemma InferRequest_question_error cfg d e :
  snd (field cfg (py "question") None
         (function_after (str_min_length 1) validate_question) None d)
  = Invalid [e] ->
  exists errors, InferRequest_validate cfg d = Invalid errors /\ In e errors.
Proof.
  intros H. unfold InferRequest_validate. rewrite H.
  change (Valid Build_RlsapiV1InferRequest <*> Invalid [e])
    with (@Invalid (RlsapiV1Context -> bool -> RlsapiV1InferRequest) [e]).
  match goal with
  | |- context [Invalid ?es <*> ?x] =>
      destruct (@ap_Invalid_l _ (bool -> RlsapiV1InferRequest) es x)
        as [m1 Hm1]; [|rewrite Hm1]
  end.
  { apply caught_field. intros v. apply caught_model_schema, caught_Context. }
  match goal with
  | |- context [Invalid ?es <*> ?x] =>
      destruct (@ap_Invalid_l _ RlsapiV1InferRequest es x)
        as [m2 Hm2]; [|rewrite Hm2]
  end.
  { apply caught_field, caught_bool_schema. }
  rewrite finish_Invalid. eexists; split; [reflexivity|].
  simpl. auto.
Qed.

(** C1 (amended). Constructing a request whose question is absent or trims
    to the empty string fails with a [ValidationError].  Its error for
    [question] carries the message of [validate_question] when the question
    is a non-empty string of whitespace; for the empty string it is the
    [min_length=1] error [string_too_short], and for an absent question
    [missing].  For a question whose trimmed value is not empty the stored
    question, whenever the request is constructed, is the trimmed string, and
    a payload holding only that question is constructed (the question being
    text that UTF-8 can hold, as a constrained string must be). *)
Theorem question_validation (cfg : ConfigDict) (d : dict) :
  (dict_get d (py "question") = None ->
     exists errors, InferRequest_validate cfg d = Invalid errors
       /\ In {| loc := [py "question"]; type_ := missing |} errors)
  /\ (forall q, dict_get d (py "question") = Some (PyStr q) -> Py.strip q = [] ->
        exists errors, InferRequest_validate cfg d = Invalid errors
          /\ In {| loc := [py "question"];
                   type_ := match q with
                            | [] => string_too_short
                            | _ :: _ => value_error question_message
                            end |} errors)
  /\ (forall q, dict_get d (py "question") = Some (PyStr q) -> Py.strip q <> [] ->
        (forall r, InferRequest_validate cfg d = Valid r -> question r = Py.strip q)
        /\ (existsb is_surrogate q = false ->
            InferRequest_validate cfg [(py "question", PyStr q)]
            = Valid {| question := Py.strip q; context := Context_default;
                       skip_rag := false |})).
Proof.
  split; [|split].
  - intros E. apply InferRequest_question_error.
    now rewrite (field_absent _ _ _ _ _ E).
  - intros q E Hs. apply InferRequest_question_error.
    rewrite (field_present _ _ _ _ _ _ E). cbn [snd].
    destruct q as [|c q].
    + now rewrite question_schema_empty.
    + rewrite question_schema_blank by (auto; discriminate). reflexivity.
  - intros q E Hs. split.
    + intros r Hr.
      apply InferRequest_Valid_question in Hr as (q' & E' & -> & _).
      congruence.
    + intros U. unfold InferRequest_validate.
      erewrite field_present by reflexivity.
      rewrite !field_absent by reflexivity.
      rewrite question_schema_valid by assumption.
      unfold finish, extra_errors. destruct (extra cfg); reflexivity.
Qed.

Lemma question_validation_witness :
  InferRequest_validate pydantic_defaults
    [(py "question", PyStr (py "  How do I list files? "))]
  = Valid {| question := py "How do I list files?"; context := Context_default;
             skip_rag := false |}.
Proof.
  destruct (question_validation pydantic_defaults
              [(py "question", PyStr (py "  How do I list files? "))])
    as (_ & _ & H).
  destruct (H (py "  How do I list files? ") eq_refl) as [_ H'].
  - vm_compute. discriminate.
  - exact (H' eq_refl).
Defined.

(** C1 as stated fails: an absent question and an empty one are rejected
    without the message of [validate_question]. *)
Lemma question_absent_or_empty_other_message :
  InferRequest_validate pydantic_defaults []
  = Invalid [{| loc := [py "question"]; type_ := missing |}]
  /\ carries_message question_message
       (errors_of (InferRequest_validate pydantic_defaults [])) = false
  /\ InferRequest_validate pydantic_defaults [(py "question", PyStr [])]
     = Invalid [{| loc := [py "question"]; type_ := string_too_short |}]
  /\ carries_message question_message
       (errors_of (InferRequest_validate pydantic_defaults
                     [(py "question", PyStr [])])) = false.
Proof. repeat split; vm_compute; reflexivity. Qed.

(** C2. The combined input is the question followed, in this order, by
    [context.stdin], [context.attachments.contents] and
    [context.terminal.output], each present exactly when it is not empty and
    then preceded by the two-character separator; the question comes first.
    Question [fix this], stdin [error: x], empty attachment and terminal
    output [bash: nf] give the three segments joined by blank lines, and an
    empty context gives the question alone. *)
Theorem get_input_source_combined (r : RlsapiV1InferRequest) :
  get_input_source r = combinedInput r
  /\ Py.startswith (get_input_source r) (question r) = true
  /\ (forall cfg, exists r1,
        InferRequest_validate cfg
          [(py "question", PyStr (py "fix this"));
           (py "context", PyDict
              [(py "stdin", PyStr (py "error: x"));
               (py "attachments", PyDict [(py "contents", PyStr [])]);
               (py "terminal", PyDict [(py "output", PyStr (py "bash: nf"))])])]
        = Valid r1
        /\ get_input_source r1
           = py "fix this" ++ [10; 10] ++ py "error: x" ++ [10; 10] ++ py "bash: nf")
  /\ (forall cfg, exists r2,
        InferRequest_validate cfg [(py "question", PyStr (py "fix this"))]
        = Valid r2
        /\ get_input_source r2 = py "fix this").
Proof.
  assert (E : get_input_source r = combinedInput r).
  { destruct r as [q [si [co mi] [ou] sy cl] sk].
    unfold get_input_source, combinedInput. cbn [question context stdin
      attachments contents terminal output].
    destruct si, co, ou; cbn [truthy segment app Py.join];
      rewrite ?app_nil_r; reflexivity. }
  split; [exact E|]. split; [rewrite E; apply startswith_app|]. split.
  - intros cfg.
    exists {| question := py "fix this";
              context := {| stdin := py "error: x";
                            attachments := Attachment_default;
                            terminal := {| output := py "bash: nf" |};
                            systeminfo := SystemInfo_default;
                            cla := CLA_default |};
              skip_rag := false |}.
    destruct cfg as [[] pbn]; split; vm_compute; reflexivity.
  - intros cfg.
    exists {| question := py "fix this"; context := Context_default;
              skip_rag := false |}.
    destruct cfg as [[] pbn]; split; vm_compute; reflexivity.
Qed.

(** C9 (amended). [system_id] is populated from the incoming key [id]; the
    key [system_id] populates it only under a model configuration that
    populates by name, and is otherwise a key no field reads (an error where
    extra keys are forbidden, dropped where they are not).  Every other field
    of the request takes any string, and [skip_rag] any boolean, and stores
    it unchanged; an absent optional field takes the empty value of its
    type. *)
Theorem fields_accepted_unchanged (cfg : ConfigDict) :
  (forall s, SystemInfo_validate cfg [(py "id", PyStr s)]
             = Valid {| os := []; version := []; arch := []; system_id := s |})
  /\ (forall s, populate_by_name cfg = true ->
        SystemInfo_validate cfg [(py "system_id", PyStr s)]
        = Valid {| os := []; version := []; arch := []; system_id := s |})
  /\ (forall s, populate_by_name cfg = false ->
        SystemInfo_validate cfg [(py "system_id", PyStr s)]
        = match extra cfg with
          | extra_forbid =>
              Invalid [{| loc := [py "system_id"]; type_ := extra_forbidden |}]
          | _ => Valid SystemInfo_default
          end)
  /\ (forall q stdin_ contents_ mimetype_ output_ os_ version_ arch_ id_ nevra_
        cla_version_ skip_rag_,
        existsb is_surrogate q = false -> Py.strip q <> [] ->
        InferRequest_validate cfg
          (full_payload q stdin_ contents_ mimetype_ output_ os_ version_ arch_
             id_ nevra_ cla_version_ skip_rag_)
        = Valid
            {| question := Py.strip q;
               context :=
                 {| stdin := stdin_;
                    attachments := {| contents := contents_; mimetype := mimetype_ |};
                    terminal := {| output := output_ |};
                    systeminfo := {| os := os_; version := version_;
                                     arch := arch_; system_id := id_ |};
                    cla := {| nevra := nevra_; cla_version := cla_version_ |} |};
               skip_rag := skip_rag_ |})
  /\ (forall q, existsb is_surrogate q = false -> Py.strip q <> [] ->
        InferRequest_validate cfg [(py "question", PyStr q)]
        = Valid {| question := Py.strip q; context := Context_default;
                   skip_rag := false |})
  /\ Context_validate cfg [] = Valid Context_default.
Proof.
  repeat split.
  - intros s. destruct cfg as [[] pbn]; reflexivity.
  - intros s H. destruct cfg as [[] pbn]; simpl in H; subst pbn; reflexivity.
  - intros s H. destruct cfg as [[] pbn]; simpl in H; subst pbn; reflexivity.
  - intros q si co mi ou os_ ve ar id_ ne cv sk U Hs.
    unfold InferRequest_validate, full_payload.
    erewrite !field_present by reflexivity. cbn [fst snd].
    rewrite question_schema_valid by assumption.
    generalize (Py.strip q). intros q'.
    destruct cfg as [[] pbn]; vm_compute; reflexivity.
  - intros q U Hs.
    unfold InferRequest_validate.
    erewrite field_present by reflexivity.
    rewrite !field_absent by reflexivity.
    rewrite question_schema_valid by assumption.
    unfold finish, extra_errors. destruct (extra cfg); reflexivity.
  - destruct cfg as [[] pbn]; reflexivity.
Qed.

Lemma fields_accepted_unchanged_witness :
  SystemInfo_validate {| extra := extra_forbid; populate_by_name := true |}
    [(py "system_id", PyStr (py "machine-1"))]
  = Valid {| os := []; version := []; arch := []; system_id := py "machine-1" |}.
Proof.
  destruct (fields_accepted_unchanged
              {| extra := extra_forbid; populate_by_name := true |})
    as (_ & H & _).
  exact (H (py "machine-1") eq_refl).
Defined.

(** C9 as stated fails: without population by name the key [system_id]
    does not reach the field, which keeps its default. *)
Lemma system_id_not_populated_by_name :
  SystemInfo_validate pydantic_defaults [(py "system_id", PyStr (py "machine-1"))]
  = Valid {| os := []; version := []; arch := []; system_id := [] |}
  /\ SystemInfo_validate {| extra := extra_forbid; populate_by_name := false |}
       [(py "system_id", PyStr (py "machine-1"))]
     = Invalid [{| loc := [py "system_id"]; type_ := extra_forbidden |}].
Proof. split; vm_compute; reflexivity. Qed.

End RequestFacts.

(** ** [int(s, 16)] *)

Section IntFacts.
Context {unicode : UnicodeData}.

Lemma is_hex_digit c : is_hex c = true -> (Py.PyLong_DigitValue c <? 16) = true.
Proof.
  unfold is_hex, is_lower_hex, Py.PyLong_DigitValue. intros H.
  apply N.ltb_lt.
  repeat match goal with
  | |- context [if ?b then _ else _] => destruct b eqn:?
  end; char_lia.
Qed.

Lemma is_hex_ascii c : is_hex c = true -> (c <? 127) = true.
Proof. unfold is_hex, is_lower_hex. intros H. apply N.ltb_lt. char_lia. Qed.

Lemma is_hex_not c x :
  is_hex c = true -> is_hex x = false -> (c =? x) = false.
Proof. intros H1 H2. apply N.eqb_neq. intros ->. congruence. Qed.

Lemma transform_hex s :
  forallb is_hex s = true -> Py.TransformDecimalAndSpaceToASCII s = s.
Proof.
  intros H. unfold Py.TransformDecimalAndSpaceToASCII.
  destruct (Py.IS_ASCII s); [reflexivity|].
  induction s as [|c s IH]; simpl; [reflexivity|].
  simpl in H. apply andb_true_iff in H as [Hc Hs].
  now rewrite (is_hex_ascii _ Hc), IH.
Qed.

Lemma scan_digits_hex s prev acc :
  forallb is_hex s = true -> s <> [] ->
  exists z, Py.scan_digits 16 prev acc s = Some (z, []).
Proof.
  revert prev acc. induction s as [|c s IH]; intros prev acc H Hne; [congruence|].
  simpl in H. apply andb_true_iff in H as [Hc Hs].
  cbn [Py.scan_digits].
  rewrite (is_hex_not c 95 Hc eq_refl), (is_hex_digit _ Hc).
  destruct s as [|c' s'].
  - cbn [Py.scan_digits]. rewrite (is_hex_not c 95 Hc eq_refl). eauto.
  - apply IH; [exact Hs | discriminate].
Qed.

(** A string of hexadecimal digits is read. *)
Lemma int_16_hex s :
  forallb is_hex s = true -> s <> [] -> returns (Py.int_16 s) = true.
Proof.
  intros H Hne. unfold Py.int_16. rewrite (transform_hex _ H).
  destruct s as [|c s]; [congruence|].
  pose proof H as H'. simpl in H'. apply andb_true_iff in H' as [Hc Hs].
  unfold Py.PyLong_FromString_16.
  assert (Hsp : Py.Py_ISSPACE c = false).
  { destruct (Py.Py_ISSPACE c) eqn:E; [exfalso|reflexivity].
    unfold Py.Py_ISSPACE in E. unfold is_hex, is_lower_hex in Hc. char_lia. }
  cbn [Py.lstrip_by]. rewrite Hsp.
  cbn [Py.at_char].
  rewrite (is_hex_not c 43 Hc eq_refl), (is_hex_not c 45 Hc eq_refl).
  cbn [orb Py.at_char].
  assert (Hx : ((c =? 48) && (Py.at_char 120 (tl (c :: s)) || Py.at_char 88 (tl (c :: s)))) = false).
  { destruct s as [|x s']; [cbn; now rewrite andb_false_r|].
    simpl in Hs. apply andb_true_iff in Hs as [Hx _]. cbn [tl Py.at_char].
    rewrite (is_hex_not x 120 Hx eq_refl), (is_hex_not x 88 Hx eq_refl).
    now rewrite andb_false_r. }
  rewrite Hx. cbn [Py.at_char]. rewrite (is_hex_not c 95 Hc eq_refl).
  destruct (scan_digits_hex (c :: s) 0 0%Z H Hne) as [z Hz].
  rewrite Hz. reflexivity.
Qed.

Lemma lstrip_by_incl f s x : In x (Py.lstrip_by f s) -> In x s.
Proof.
  induction s as [|c s IH]; simpl; [tauto|].
  destruct (f c); simpl; auto.
Qed.

Lemma lstrip_by_length f s : (length (Py.lstrip_by f s) <= length s)%nat.
Proof.
  induction s as [|c s IH]; simpl; [lia|].
  destruct (f c); simpl; lia.
Qed.

Lemma transform_length s :
  (length (Py.TransformDecimalAndSpaceToASCII s) <= length s)%nat.
Proof.
  unfold Py.TransformDecimalAndSpaceToASCII.
  destruct (Py.IS_ASCII s); [lia|].
  induction s as [|c s IH]; simpl; [lia|].
  destruct (c <? 127); [simpl; lia|].
  destruct (Py_UNICODE_ISSPACE c); [simpl; lia|].
  destruct (Py_UNICODE_TODECIMAL c); simpl; lia.
Qed.

Lemma transform_no_minus s :
  ~ In 45 s -> ~ In 45 (Py.TransformDecimalAndSpaceToASCII s).
Proof.
  unfold Py.TransformDecimalAndSpaceToASCII.
  destruct (Py.IS_ASCII s); [tauto|].
  induction s as [|c s IH]; simpl; [tauto|].
  intros H.
  destruct (c <? 127); [simpl; tauto|].
  destruct (Py_UNICODE_ISSPACE c); [simpl; intros [E|E]; [discriminate|tauto]|].
  destruct (Py_UNICODE_TODECIMAL c) as [d|]; simpl.
  - intros [E|E]; [destruct d; discriminate|tauto].
  - intros [E|[]]; discriminate.
Qed.

(** What the digit loop returns is bounded by the characters it has read. *)
Lemma scan_digits_range s prev acc z rest :
  Py.scan_digits 16 prev acc s = Some (z, rest) -> (0 <= acc)%Z ->
  (0 <= z < (acc + 1) * 16 ^ Z.of_nat (length s))%Z.
Proof.
  revert prev acc. induction s as [|c s IH]; intros prev acc H Hacc.
  - simpl in H. destruct (prev =? 95); [discriminate|].
    injection H as <- <-. simpl. lia.
  - cbn [Py.scan_digits] in H.
    assert (Hpow : (0 < 16 ^ Z.of_nat (length s))%Z) by (apply Z.pow_pos_nonneg; lia).
    replace (Z.of_nat (length (c :: s))) with (Z.succ (Z.of_nat (length s)))
      by (simpl length; lia).
    rewrite Z.pow_succ_r by lia.
    destruct (c =? 95).
    + destruct (prev =? 95); [discriminate|].
      apply IH in H; [|exact Hacc]. nia.
    + destruct (Py.PyLong_DigitValue c <? 16) eqn:Hd.
      * apply N.ltb_lt in Hd. apply IH in H; [|lia]. nia.
      * destruct (prev =? 95); [discriminate|]. injection H as <- <-. nia.
Qed.

Lemma at_char_In c s : Py.at_char c s = true -> In c s.
Proof.
  destruct s as [|x s]; simpl; [discriminate|].
  intros H. apply N.eqb_eq in H. auto.
Qed.

Lemma tl_length (s : str) : (length (tl s) <= length s)%nat.
Proof. destruct s; simpl; lia. Qed.

Lemma PyLong_FromString_16_range b z :
  Py.PyLong_FromString_16 b = Return z -> ~ In 45 b ->
  (0 <= z < 16 ^ Z.of_nat (length b))%Z.
Proof.
  unfold Py.PyLong_FromString_16. intros H Hn.
  pose proof (lstrip_by_length Py.Py_ISSPACE b) as L0.
  assert (H45 : Py.at_char 45 (Py.lstrip_by Py.Py_ISSPACE b) = false).
  { destruct (Py.at_char 45 _) eqn:E; [|reflexivity].
    exfalso. apply Hn. eapply lstrip_by_incl, at_char_In, E. }
  rewrite H45, orb_false_r in H.
  set (s0 := Py.lstrip_by Py.Py_ISSPACE b) in *.
  set (s1 := if Py.at_char 43 s0 then tl s0 else s0) in *.
  assert (L1 : (length s1 <= length b)%nat).
  { subst s1. pose proof (tl_length s0). destruct (Py.at_char 43 s0); lia. }
  set (s2 := if Py.at_char 48 s1 && _ then _ else s1) in *.
  assert (L2 : (length s2 <= length b)%nat).
  { clear H. subst s2. pose proof (tl_length s1). pose proof (tl_length (tl s1)).
    pose proof (tl_length (tl (tl s1))).
    destruct (_ && _); [destruct (Py.at_char 95 (tl (tl s1)))|]; lia. }
  destruct (Py.at_char 95 s2); [discriminate|].
  destruct (Py.scan_digits 16 0 0 s2) as [[z' rest]|] eqn:E; [|discriminate].
  destruct (Nat.eqb _ _); [discriminate|].
  destruct (Py.lstrip_by _ rest); [|discriminate].
  injection H as <-.
  apply scan_digits_range in E; [|lia].
  assert (16 ^ Z.of_nat (length s2) <= 16 ^ Z.of_nat (length b))%Z
    by (apply Z.pow_le_mono_r; lia).
  destruct z'; lia.
Qed.

Lemma int_16_range s z :
  Py.int_16 s = Return z -> ~ In 45 s -> (0 <= z < 16 ^ Z.of_nat (length s))%Z.
Proof.
  unfold Py.int_16. intros H Hn.
  apply PyLong_FromString_16_range in H; [|apply transform_no_minus, Hn].
  pose proof (transform_length s).
  assert (16 ^ Z.of_nat (length (Py.TransformDecimalAndSpaceToASCII s))
          <= 16 ^ Z.of_nat (length s))%Z by (apply Z.pow_le_mono_r; lia).
  lia.
Qed.

(** [int(s, 16)] raises nothing but [ValueError]. *)
Lemma int_16_raises s e : Py.int_16 s = Raise e -> is_ValueError e = true.
Proof.
  unfold Py.int_16, Py.PyLong_FromString_16.
  repeat match goal with
  | |- context [if ?b then _ else _] => destruct b
  | |- context [match ?x with _ => _ end] => destruct x
  end; intros H; inversion H; reflexivity.
Qed.

Lemma eqb_succ_false n : Nat.eqb n (S n) = false.
Proof. apply Nat.eqb_neq. lia. Qed.

(** No number starts with [co]: the [o] ends the digits and is not a space. *)
Lemma PyLong_FromString_16_co t :
  returns (Py.PyLong_FromString_16 (99 :: 111 :: t)) = false.
Proof.
  unfold Py.PyLong_FromString_16. simpl.
  now rewrite eqb_succ_false.
Qed.

Lemma int_16_co s : returns (Py.int_16 (99 :: 111 :: s)) = false.
Proof.
  unfold Py.int_16, Py.TransformDecimalAndSpaceToASCII.
  destruct (Py.IS_ASCII (99 :: 111 :: s)); [apply PyLong_FromString_16_co|].
  cbn [Py.transform_loop].
  change (99 <? 127) with true. change (111 <? 127) with true. cbv iota.
  apply PyLong_FromString_16_co.
Qed.

End IntFacts.

(** ** [str.replace] and [str.strip] *)

Section StrFacts.

Lemma replace_single c s :
  Py.replace [c] [] s = filter (fun x => negb (x =? c)) s.
Proof.
  unfold Py.replace. induction s as [|x s IH]; [reflexivity|].
  cbn [Py.replace_from Py.startswith filter length app].
  rewrite andb_true_r. destruct (x =? c); cbn [negb]; now rewrite IH.
Qed.

Lemma startswith_head_absent c old s :
  ~ In c s -> Py.startswith s (c :: old) = false.
Proof.
  destruct s as [|x s]; [reflexivity|]. simpl. intros H.
  destruct (x =? c) eqn:E; [|reflexivity].
  apply N.eqb_eq in E. tauto.
Qed.

(** Nothing is replaced in a string that lacks the first character of
    [old]. *)
Lemma replace_absent c old new s :
  ~ In c s -> Py.replace (c :: old) new s = s.
Proof.
  unfold Py.replace. induction s as [|x s IH]; intros H; [reflexivity|].
  cbn [Py.replace_from]. rewrite (startswith_head_absent c old (x :: s) H).
  rewrite IH; [reflexivity|]. simpl in H. tauto.
Qed.

Lemma replace_cons_keep c old new x s :
  (x =? c) = false ->
  Py.replace (c :: old) new (x :: s) = x :: Py.replace (c :: old) new s.
Proof. intros H. unfold Py.replace. cbn [Py.replace_from Py.startswith]. now rewrite H. Qed.

Lemma lstrip_by_snoc f l a :
  f a = false -> Py.lstrip_by f (l ++ [a]) = Py.lstrip_by f l ++ [a].
Proof.
  intros H. induction l as [|x l IH]; simpl; [now rewrite H|].
  destruct (f x); [exact IH | reflexivity].
Qed.

Lemma rstrip_by_cons f a s :
  f a = false -> Py.rstrip_by f (a :: s) = a :: Py.rstrip_by f s.
Proof.
  intros H. unfold Py.rstrip_by. cbn [rev].
  rewrite (lstrip_by_snoc _ _ _ H), rev_app_distr. reflexivity.
Qed.

Lemma rstrip_by_id f s : (forall x, In x s -> f x = false) -> Py.rstrip_by f s = s.
Proof.
  induction s as [|a s IH]; intros H; [reflexivity|].
  rewrite rstrip_by_cons by (apply H; left; reflexivity).
  rewrite IH; [reflexivity|]. intros x Hx. apply H. right. exact Hx.
Qed.

Lemma lstrip_by_id f s : (forall x, In x s -> f x = false) -> Py.lstrip_by f s = s.
Proof.
  destruct s as [|a s]; intros H; [reflexivity|].
  simpl. now rewrite (H a (or_introl eq_refl)).
Qed.

Lemma strip_chars_id chars s :
  (forall x, In x s -> Py.mem x chars = false) -> Py.strip_chars chars s = s.
Proof.
  intros H. unfold Py.strip_chars.
  rewrite (lstrip_by_id _ s H). apply (rstrip_by_id _ s H).
Qed.

Lemma strip_chars_cons2 chars a b s :
  Py.mem a chars = false -> Py.mem b chars = false ->
  exists t, Py.strip_chars chars (a :: b :: s) = a :: b :: t.
Proof.
  intros Ha Hb. unfold Py.strip_chars. cbn [Py.lstrip_by]. rewrite Ha.
  rewrite !rstrip_by_cons by assumption. eauto.
Qed.

End StrFacts.

(** ** [uuid.UUID] *)

Section UuidFacts.
Context {unicode : UnicodeData}.

Lemma hex_payload_no_minus s : ~ In 45 (Uuid.hex_payload s).
Proof.
  unfold Uuid.hex_payload. change (py "-") with [45]. rewrite replace_single.
  intros H. apply filter_In in H as [_ H]. discriminate.
Qed.

(** [UUID(hex)] succeeds exactly when 32 characters are left of [hex] and
    they are read as a number: the range test cannot fail. *)
Lemma UUID_of_hex_returns s :
  returns (Uuid.UUID_of_hex s)
  = Nat.eqb (length (Uuid.hex_payload s)) 32
    && returns (Py.int_16 (Uuid.hex_payload s)).
Proof.
  unfold Uuid.UUID_of_hex.
  destruct (Nat.eqb (length (Uuid.hex_payload s)) 32) eqn:L; [|reflexivity].
  cbn [negb andb].
  destruct (Py.int_16 (Uuid.hex_payload s)) as [z|e] eqn:E; [|reflexivity].
  cbn [bind returns].
  apply int_16_range in E; [|apply hex_payload_no_minus].
  apply Nat.eqb_eq in L. rewrite L in E.
  assert (R : Uuid.in_range z = true).
  { unfold Uuid.in_range. apply andb_true_iff. split;
      [apply Z.leb_le | apply Z.ltb_lt]; [lia|].
    change (Z.shiftl 1 128) with (16 ^ Z.of_nat 32)%Z. lia. }
  now rewrite R.
Qed.

(** A string that begins with [conv_] is no UUID. *)
Lemma UUID_of_hex_conv h :
  returns (Uuid.UUID_of_hex (py "conv_" ++ h)) = false.
Proof.
  rewrite UUID_of_hex_returns.
  assert (E : exists t, Uuid.hex_payload (py "conv_" ++ h) = 99 :: 111 :: t).
  { unfold Uuid.hex_payload.
    change (py "conv_" ++ h) with (99 :: 111 :: 110 :: 118 :: 95 :: h).
    change (py "urn:") with [117; 114; 110; 58].
    change (py "uuid:") with [117; 117; 105; 100; 58].
    change (py "-") with [45]. change (py "{}") with [123; 125].
    rewrite !replace_cons_keep by reflexivity.
    edestruct (strip_chars_cons2 [123; 125] 99 111) as [t ->];
      [reflexivity | reflexivity |].
    rewrite !replace_cons_keep by reflexivity. eauto. }
  destruct E as [t ->]. rewrite int_16_co. apply andb_false_r.
Qed.

End UuidFacts.

(** ** [check_suid] *)

Section CheckSuidFacts.
Context {unicode : UnicodeData}.
Import Suid.

(** The two paths of [check_suid] on a string: the part after an optional
    [conv_] decides which one is taken, and no exception leaves it. *)
Lemma check_suid_str s :
  check_suid (PyStr s)
  = Return (if Nat.eqb (length (normalize_conversation_id s)) 48
            then returns (Py.int_16 (normalize_conversation_id s))
            else returns (Uuid.UUID_of_hex s)).
Proof.
  unfold check_suid. fold (normalize_conversation_id s).
  destruct (Nat.eqb (length (normalize_conversation_id s)) 48).
  - destruct (Py.int_16 (normalize_conversation_id s)) as [z|e] eqn:E;
      [reflexivity|].
    cbn [bind try_except returns]. now rewrite (int_16_raises _ _ E).
  - destruct (Uuid.UUID_of_hex s) as [u|e]; [reflexivity|].
    cbn [bind try_except returns]. destruct e; reflexivity.
Qed.

Lemma check_suid_not_str v : isinstance_str v = false -> check_suid v = Return false.
Proof. destruct v; simpl; congruence. Qed.

(** *** Canonical UUIDs *)

Lemma hyphenated_last digit n s :
  hyphenated digit [n] s = true -> length s = n /\ forallb digit s = true.
Proof.
  simpl. intros H. apply andb_true_iff in H as [L F].
  apply Nat.eqb_eq in L. auto.
Qed.

Lemma hyphenated_cons digit n m sizes s :
  hyphenated digit (n :: m :: sizes) s = true ->
  exists g rest, s = g ++ 45 :: rest /\ length g = n
                 /\ forallb digit g = true
                 /\ hyphenated digit (m :: sizes) rest = true.
Proof.
  cbn [hyphenated]. intros H.
  apply andb_true_iff in H as [H Hr]. apply andb_true_iff in H as [L F].
  destruct (skipn n s) as [|c rest] eqn:E; [discriminate|].
  apply andb_true_iff in Hr as [Hc Hr]. apply N.eqb_eq in Hc. subst c.
  exists (firstn n s), rest. apply Nat.eqb_eq in L.
  repeat split; try assumption.
  transitivity (firstn n s ++ skipn n s);
    [symmetry; apply firstn_skipn | f_equal; exact E].
Qed.

Lemma hyphenated_weaken (d1 d2 : char -> bool) sizes s :
  (forall c, d1 c = true -> d2 c = true) ->
  hyphenated d1 sizes s = true -> hyphenated d2 sizes s = true.
Proof.
  intros Hd. revert s. induction sizes as [|n sizes IH]; intros s; [trivial|].
  assert (F : forall l, forallb d1 l = true -> forallb d2 l = true).
  { intros l. rewrite !forallb_forall. auto. }
  destruct sizes as [|m sizes].
  - simpl. intros H. apply andb_true_iff in H as [L H].
    now rewrite L, (F _ H).
  - cbn [hyphenated]. intros H.
    apply andb_true_iff in H as [H Hr]. apply andb_true_iff in H as [L H].
    rewrite L, (F _ H). cbn [andb].
    destruct (skipn n s) as [|c rest]; [discriminate|].
    apply andb_true_iff in Hr as [Hc Hr]. rewrite Hc. cbn [andb]. now apply IH.
Qed.

Lemma filter_hex g : forallb is_hex g = true -> filter not_hyphen g = g.
Proof.
  induction g as [|c g IH]; simpl; [reflexivity|].
  intros H. apply andb_true_iff in H as [Hc Hg]. unfold not_hyphen at 1.
  rewrite (is_hex_not c 45 Hc eq_refl). cbn [negb]. now rewrite IH.
Qed.

(** The digits of a canonical UUID: 32 of them, the hyphens apart. *)
Lemma canonical_digits s :
  is_canonical_uuid s = true ->
  length (filter not_hyphen s) = 32%nat
  /\ forallb is_hex (filter not_hyphen s) = true
  /\ Py.startswith s (py "conv_") = false
  /\ length s = 36%nat.
Proof.
  unfold is_canonical_uuid. intros H.
  apply hyphenated_cons in H as (g1 & r1 & -> & L1 & F1 & H).
  apply hyphenated_cons in H as (g2 & r2 & -> & L2 & F2 & H).
  apply hyphenated_cons in H as (g3 & r3 & -> & L3 & F3 & H).
  apply hyphenated_cons in H as (g4 & r4 & -> & L4 & F4 & H).
  apply hyphenated_last in H as [L5 F5].
  assert (E : filter not_hyphen (g1 ++ 45 :: g2 ++ 45 :: g3 ++ 45 :: g4 ++ 45 :: r4)
              = g1 ++ g2 ++ g3 ++ g4 ++ r4).
  { repeat (rewrite filter_app; cbn [filter];
            change (not_hyphen 45) with false; cbv iota).
    now rewrite !filter_hex by assumption. }
  rewrite E. repeat split.
  - rewrite !length_app. lia.
  - rewrite !forallb_app, F1, F2, F3, F4, F5. reflexivity.
  - destruct g1 as [|a [|b g1]]; try discriminate.
    simpl in F1. apply andb_true_iff in F1 as [_ F1].
    apply andb_true_iff in F1 as [Fb _].
    change (py "conv_") with [99; 111; 110; 118; 95]. cbn [app Py.startswith].
    rewrite (is_hex_not b 111 Fb eq_refl). now rewrite andb_false_r.
  - rewrite !length_app. cbn [length]. rewrite !length_app. cbn [length].
    rewrite !length_app. cbn [length]. rewrite !length_app. cbn [length]. lia.
Qed.

(** On strings made of hexadecimal digits and hyphens [UUID(hex)] only
    takes the hyphens out. *)
Lemma hex_payload_plain s :
  forallb is_hex (filter not_hyphen s) = true ->
  Uuid.hex_payload s = filter not_hyphen s.
Proof.
  intros H.
  assert (A : forall x, In x s -> is_hex x = true \/ x = 45).
  { intros x Hx. destruct (x =? 45) eqn:E; [apply N.eqb_eq in E; auto|].
    left. rewrite forallb_forall in H. apply H.
    apply filter_In. split; [exact Hx|]. unfold not_hyphen. now rewrite E. }
  assert (B : forall c, is_hex c = false -> c <> 45 -> ~ In c s).
  { intros c Hc Hn Hin. destruct (A c Hin); congruence. }
  unfold Uuid.hex_payload.
  change (py "urn:") with [117; 114; 110; 58].
  change (py "uuid:") with [117; 117; 105; 100; 58].
  change (py "-") with [45]. change (py "{}") with [123; 125].
  rewrite (replace_absent 117 [114; 110; 58] [] s)
    by (apply B; [reflexivity | discriminate]).
  rewrite (replace_absent 117 [117; 105; 100; 58] [] s)
    by (apply B; [reflexivity | discriminate]).
  rewrite strip_chars_id; [apply replace_single|].
  intros x Hx. unfold Py.mem. cbn [existsb].
  destruct (A x Hx) as [Hh| ->]; [|reflexivity].
  now rewrite (is_hex_not x 123 Hh eq_refl), (is_hex_not x 125 Hh eq_refl).
Qed.

Lemma length_succ_nonempty (s : str) n :
  length s = S n -> s <> [].
Proof. destruct s; [discriminate | discriminate]. Qed.

(** On the UUID path 32 hexadecimal digits left by [UUID(hex)] are a valid
    identifier. *)
Lemma check_suid_payload s :
  length (normalize_conversation_id s) <> 48%nat ->
  length (Uuid.hex_payload s) = 32%nat ->
  forallb is_hex (Uuid.hex_payload s) = true ->
  check_suid (PyStr s) = Return true.
Proof.
  intros Hp L F. rewrite check_suid_str.
  apply Nat.eqb_neq in Hp. rewrite Hp.
  rewrite UUID_of_hex_returns, L, int_16_hex; [reflexivity | exact F |].
  apply (length_succ_nonempty _ _ L).
Qed.

Lemma check_suid_canonical s :
  is_canonical_uuid s = true -> check_suid (PyStr s) = Return true.
Proof.
  intros H. apply canonical_digits in H as (L & F & P & L36).
  assert (N : normalize_conversation_id s = s)
    by (unfold normalize_conversation_id; now rewrite P).
  apply check_suid_payload.
  - rewrite N, L36. discriminate.
  - now rewrite (hex_payload_plain _ F).
  - now rewrite (hex_payload_plain _ F).
Qed.

(** Digits alone never begin with [conv_]. *)
Lemma hex_not_prefixed h :
  forallb is_hex h = true -> normalize_conversation_id h = h.
Proof.
  intros F. unfold normalize_conversation_id.
  change (py "conv_") with [99; 111; 110; 118; 95].
  destruct h as [|a [|b h]]; [reflexivity | |].
  - cbn [Py.startswith]. now rewrite andb_false_r.
  - simpl in F. apply andb_true_iff in F as [_ F].
    apply andb_true_iff in F as [Fb _]. cbn [Py.startswith].
    rewrite (is_hex_not b 111 Fb eq_refl). now rewrite andb_false_r.
Qed.

(** The parts of C3 that hold: 48 hexadecimal digits are valid with and
    without the prefix, 47 or 49 are not. *)
Lemma check_suid_hex48 h :
  forallb is_hex h = true -> length h = 48%nat ->
  check_suid (PyStr h) = Return true
  /\ check_suid (PyStr (py "conv_" ++ h)) = Return true.
Proof.
  intros F L.
  assert (R : returns (Py.int_16 h) = true)
    by (apply int_16_hex; [exact F | apply (length_succ_nonempty _ _ L)]).
  split; rewrite check_suid_str.
  - now rewrite (hex_not_prefixed _ F), L, R.
  - now rewrite normalize_prefixed, L, R.
Qed.

Lemma check_suid_hex_other_length h :
  forallb is_hex h = true -> length h <> 48%nat -> length h <> 32%nat ->
  check_suid (PyStr h) = Return false.
Proof.
  intros F L48 L32. rewrite check_suid_str, (hex_not_prefixed _ F).
  apply Nat.eqb_neq in L48. rewrite L48.
  rewrite UUID_of_hex_returns, hex_payload_plain;
    rewrite (filter_hex _ F); [|exact F].
  apply Nat.eqb_neq in L32. now rewrite L32.
Qed.

(** C3 (the code departs from the claim). On the 48-character path
    [check_suid] returns what [int(hex_part, 16)] accepts, and that is more
    than hexadecimal digits: a sign followed by 47 digits is 48 characters,
    one of them no hexadecimal digit, and [check_suid] returns [True]. *)
Theorem check_suid_accepts_signed_literal :
  length (py "+aaaaaaaaaaaaaaaaaaaaaaaaaaaaaaaaaaaaaaaaaaaaaaa") = 48%nat
  /\ forallb is_hex (py "+aaaaaaaaaaaaaaaaaaaaaaaaaaaaaaaaaaaaaaaaaaaaaaa") = false
  /\ check_suid (PyStr (py "+aaaaaaaaaaaaaaaaaaaaaaaaaaaaaaaaaaaaaaaaaaaaaaa"))
     = Return true
  /\ check_suid (PyStr (py "conv_0xaaaaaaaaaaaaaaaaaaaaaaaaaaaaaaaaaaaaaaaaaaaaaa"))
     = Return true.
Proof. repeat split; vm_compute; reflexivity. Qed.

(** C4 (amended). When the part after an optional [conv_] does not have 48
    characters, [check_suid] returns whether [uuid.UUID] accepts the
    original, unstripped string.  Of that string [urn:] and [uuid:] are
    deleted, braces stripped at both ends and every hyphen deleted: the
    result is false when what is left does not have 32 characters or is not
    read as a base-16 integer, and true when it is 32 hexadecimal digits.
    Hyphens are thus optional: a canonical 8-4-4-4-12 UUID is accepted, and
    so is a string of 32 hexadecimal digits with no hyphen. *)
Theorem check_suid_uuid_path (s : str) :
  length (normalize_conversation_id s) <> 48%nat ->
  check_suid (PyStr s) = Return (returns (Uuid.UUID_of_hex s))
  /\ (length (Uuid.hex_payload s) <> 32%nat ->
        check_suid (PyStr s) = Return false)
  /\ (returns (Py.int_16 (Uuid.hex_payload s)) = false ->
        check_suid (PyStr s) = Return false)
  /\ (length (Uuid.hex_payload s) = 32%nat ->
      forallb is_hex (Uuid.hex_payload s) = true ->
        check_suid (PyStr s) = Return true)
  /\ (is_canonical_uuid s = true -> check_suid (PyStr s) = Return true)
  /\ (length s = 32%nat -> forallb is_hex s = true ->
        check_suid (PyStr s) = Return true).
Proof.
  intros Hp.
  assert (E : check_suid (PyStr s) = Return (returns (Uuid.UUID_of_hex s))).
  { rewrite check_suid_str. apply Nat.eqb_neq in Hp. now rewrite Hp. }
  split; [exact E|]. repeat split.
  - intros L. rewrite E, UUID_of_hex_returns.
    apply Nat.eqb_neq in L. now rewrite L.
  - intros R. rewrite E, UUID_of_hex_returns, R. now rewrite andb_false_r.
  - apply check_suid_payload, Hp.
  - apply check_suid_canonical.
  - intros L F.
    assert (P : Uuid.hex_payload s = s).
    { rewrite hex_payload_plain; rewrite (filter_hex _ F); auto. }
    apply check_suid_payload; rewrite ?P; auto.
Qed.

(** C10. Normalization preserves validity: an identifier that
    [check_suid] accepts is still accepted once [conv_] is stripped. *)
Theorem normalize_preserves_validity (s : str) :
  check_suid (PyStr s) = Return true ->
  check_suid (PyStr (normalize_conversation_id s)) = Return true.
Proof.
  intros H.
  destruct (Py.startswith s (py "conv_")) eqn:P.
  - pose proof (startswith_split _ _ P) as E.
    set (h := Py.slice_from (length (py "conv_")) s) in E.
    rewrite E in H |- *. rewrite normalize_prefixed.
    rewrite check_suid_str, normalize_prefixed in H.
    destruct (Nat.eqb (length h) 48) eqn:L.
    + injection H as R.
      assert (Q : normalize_conversation_id h = h).
      { unfold normalize_conversation_id.
        destruct (Py.startswith h (py "conv_")) eqn:Ph; [|reflexivity].
        apply startswith_split in Ph. rewrite Ph in R.
        change (py "conv_") with [99; 111; 110; 118; 95] in R. cbn [app] in R.
        rewrite int_16_co in R. discriminate. }
      now rewrite check_suid_str, Q, L, R.
    + rewrite UUID_of_hex_conv in H. discriminate.
  - unfold normalize_conversation_id. rewrite P. exact H.
Qed.

End CheckSuidFacts.

(** ** ['%032x'] and [uuid4] *)

Section FormatFacts.

Lemma hexdigit_lower d : d < 16 -> is_lower_hex (Uuid.hexdigit d) = true.
Proof.
  intros H. unfold Uuid.hexdigit, is_lower_hex.
  destruct (d <? 10) eqn:E; apply orb_true_iff; [left | right];
    apply andb_true_iff; split; apply N.leb_le; char_lia.
Qed.

Lemma fixed_hex_length k n : length (Uuid.fixed_hex k n) = k.
Proof.
  revert n. induction k as [|k IH]; intros n; simpl; [reflexivity|].
  rewrite length_app, IH. simpl. lia.
Qed.

Lemma fixed_hex_lower k n : forallb is_lower_hex (Uuid.fixed_hex k n) = true.
Proof.
  revert n. induction k as [|k IH]; intros n; simpl; [reflexivity|].
  rewrite forallb_app, IH. simpl.
  rewrite hexdigit_lower; [reflexivity|]. apply N.mod_lt. discriminate.
Qed.

Lemma fixed_hex_zero k : Uuid.fixed_hex k 0 = repeat 48 k.
Proof.
  induction k as [|k IH]; [reflexivity|].
  cbn [Uuid.fixed_hex]. change (0 / 16) with 0. rewrite IH.
  change [Uuid.hexdigit (0 mod 16)] with (repeat 48 1).
  rewrite <- repeat_app. f_equal. lia.
Qed.

(** The digit at index [i] of [k] digits. *)
Lemma fixed_hex_nth k n i :
  (i < k)%nat ->
  nth i (Uuid.fixed_hex k n) 0
  = Uuid.hexdigit ((n / 16 ^ N.of_nat (k - 1 - i)) mod 16).
Proof.
  revert n i. induction k as [|k IH]; intros n i H; [lia|].
  cbn [Uuid.fixed_hex].
  destruct (Nat.eq_dec i k) as [->|Hne].
  - rewrite app_nth2; rewrite fixed_hex_length; [|lia].
    replace (k - k)%nat with 0%nat by lia.
    replace (S k - 1 - k)%nat with 0%nat by lia.
    cbn [nth]. change (16 ^ N.of_nat 0) with 1. now rewrite N.div_1_r.
  - rewrite app_nth1 by (rewrite fixed_hex_length; lia).
    rewrite IH by lia. f_equal. f_equal.
    rewrite N.Div0.div_div.
    f_equal.
    replace (S k - 1 - i)%nat with (S (k - 1 - i)) by lia.
    rewrite Nat2N.inj_succ, N.pow_succ_r'. reflexivity.
Qed.

Lemma zfill_snoc k (s : str) c :
  Uuid.zfill (S k) (s ++ [c]) = Uuid.zfill k s ++ [c].
Proof.
  unfold Uuid.zfill. rewrite length_app. cbn [length].
  replace (S k - (length s + 1))%nat with (k - length s)%nat by lia.
  now rewrite app_assoc.
Qed.

(** Padded to [k] digits, the digits of [n] are its [k] digits. *)
Lemma zfill_hex_digits fuel k n :
  n < 16 ^ N.of_nat fuel -> n < 16 ^ N.of_nat k -> (1 <= k)%nat ->
  Uuid.zfill k (Uuid.hex_digits fuel n) = Uuid.fixed_hex k n.
Proof.
  revert k n. induction fuel as [|fuel IH]; intros k n Hf Hk Hk1.
  - change (16 ^ N.of_nat 0) with 1 in Hf.
    assert (n = 0) by lia. subst n.
    rewrite fixed_hex_zero. unfold Uuid.zfill. cbn [Uuid.hex_digits length].
    rewrite app_nil_r. f_equal. lia.
  - destruct k as [|k]; [lia|].
    cbn [Uuid.hex_digits Uuid.fixed_hex].
    destruct (n <? 16) eqn:E.
    + apply N.ltb_lt in E.
      rewrite (N.div_small n 16 E), (N.mod_small n 16 E), fixed_hex_zero.
      unfold Uuid.zfill. cbn [length]. f_equal. f_equal. lia.
    + apply N.ltb_ge in E.
      rewrite zfill_snoc. f_equal.
      rewrite Nat2N.inj_succ, N.pow_succ_r' in Hf, Hk.
      assert (1 <= k)%nat.
      { destruct k; [|lia]. change (16 ^ N.of_nat 0) with 1 in Hk. lia. }
      apply IH; [| |assumption];
        apply N.Div0.div_lt_upper_bound; assumption.
Qed.

Lemma format_x_fuel n : n < 16 ^ N.of_nat (S (N.to_nat (N.log2 n))).
Proof.
  rewrite Nat2N.inj_succ, N2Nat.id.
  destruct (N.eq_dec n 0) as [->|Hn]; [reflexivity|].
  destruct (N.log2_spec n) as [_ H]; [lia|].
  eapply N.lt_le_trans; [exact H|].
  apply N.pow_le_mono_l. lia.
Qed.

Lemma format_032x_fixed n :
  (0 <= n < 2 ^ 128)%Z ->
  Uuid.format_032x n = Uuid.fixed_hex 32 (Z.abs_N n).
Proof.
  intros [H0 H1]. unfold Uuid.format_032x.
  destruct (n <? 0)%Z eqn:E; [apply Z.ltb_lt in E; lia|].
  apply zfill_hex_digits; [apply format_x_fuel | | lia].
  apply N2Z.inj_lt. rewrite N2Z.inj_abs_N, Z.abs_eq by lia.
  change (Z.of_N (16 ^ N.of_nat 32)) with (2 ^ 128)%Z. exact H1.
Qed.

End FormatFacts.

Section Uuid4Facts.

Lemma from_bytes_fold b acc :
  (0 <= acc)%Z ->
  (0 <= fold_left (fun a x => a * 256 + Z.of_N (Byte.to_N x)) b acc
   < (acc + 1) * 256 ^ Z.of_nat (length b))%Z.
Proof.
  revert acc. induction b as [|x b IH]; intros acc H.
  - simpl. lia.
  - cbn [fold_left].
    pose proof (Byte.to_N_bounded x) as Hx.
    specialize (IH (acc * 256 + Z.of_N (Byte.to_N x))%Z ltac:(lia)).
    assert (0 < 256 ^ Z.of_nat (length b))%Z by (apply Z.pow_pos_nonneg; lia).
    replace (Z.of_nat (length (x :: b))) with (Z.succ (Z.of_nat (length b)))
      by (simpl length; lia).
    rewrite Z.pow_succ_r by lia. nia.
Qed.

Lemma from_bytes_range b :
  length b = 16%nat -> (0 <= Uuid.from_bytes b < 2 ^ 128)%Z.
Proof.
  intros L. pose proof (from_bytes_fold b 0 ltac:(lia)) as H.
  rewrite L in H. exact H.
Qed.

(** The variant and version bits that [UUID(bytes=..., version=4)] sets. *)
Lemma version_bits n0 :
  (0 <= n0 < 2 ^ 128)%Z ->
  let n := Z.lor (Z.land (Z.lor (Z.land n0 (Z.lnot (Z.shiftl 0xc000 48)))
                            (Z.shiftl 0x8000 48))
                    (Z.lnot (Z.shiftl 0xf000 64)))
             (Z.shiftl 4 76) in
  (0 <= n < 2 ^ 128)%Z
  /\ Z.land (Z.shiftr n 76) 15 = 4%Z
  /\ Z.land (Z.shiftr n 62) 3 = 2%Z.
Proof.
  intros H n.
  assert (Hnn : (0 <= n)%Z).
  { subst n. apply Z.lor_nonneg. split; [|discriminate].
    apply Z.land_nonneg. left. apply Z.lor_nonneg. split; [|discriminate].
    apply Z.land_nonneg. left. lia. }
  assert (Hhi : Z.shiftr n 128 = 0%Z).
  { subst n. rewrite !Z.shiftr_lor, !Z.shiftr_land, !Z.shiftr_lor, !Z.shiftr_land.
    rewrite (Z.shiftr_div_pow2 n0 128), (Z.div_small n0 (2 ^ 128)) by lia.
    reflexivity. }
  split; [|split].
  - split; [exact Hnn|].
    rewrite Z.shiftr_div_pow2 in Hhi by lia.
    apply Z.div_small_iff in Hhi; lia.
  - subst n. rewrite !Z.shiftr_lor, !Z.shiftr_land, !Z.shiftr_lor, !Z.shiftr_land.
    generalize (Z.shiftr n0 76). intros x.
    rewrite Z.land_lor_distr_l, <- Z.land_assoc.
    change (Z.land (Z.shiftr (Z.lnot (Z.shiftl 61440 64)) 76) 15) with 0%Z.
    now rewrite Z.land_0_r.
  - subst n. rewrite !Z.shiftr_lor, !Z.shiftr_land, !Z.shiftr_lor, !Z.shiftr_land.
    generalize (Z.shiftr n0 62). intros x.
    rewrite Z.land_lor_distr_l, <- Z.land_assoc.
    change (Z.land (Z.shiftr (Z.lnot (Z.shiftl 61440 64)) 62) 3) with 3%Z.
    change (Z.land (Z.shiftr (Z.shiftl 4 76) 62) 3) with 0%Z.
    rewrite Z.lor_0_r, Z.land_lor_distr_l, <- Z.land_assoc.
    change (Z.land (Z.shiftr (Z.lnot (Z.shiftl 49152 48)) 62) 3) with 0%Z.
    now rewrite Z.land_0_r.
Qed.

Lemma uuid4_returns b :
  length b = 16%nat ->
  exists n, Uuid.uuid4 b = Return {| Uuid.int := n |}
            /\ (0 <= n < 2 ^ 128)%Z
            /\ Z.land (Z.shiftr n 76) 15 = 4%Z
            /\ Z.land (Z.shiftr n 62) 3 = 2%Z.
Proof.
  intros L. pose proof (from_bytes_range b L) as R.
  unfold Uuid.uuid4, Uuid.UUID_of_bytes. rewrite L. cbn [Nat.eqb negb].
  assert (E : Uuid.in_range (Uuid.from_bytes b) = true).
  { unfold Uuid.in_range. apply andb_true_iff.
    split; [apply Z.leb_le | apply Z.ltb_lt]; [lia|].
    change (Z.shiftl 1 128) with (2 ^ 128)%Z. lia. }
  rewrite E. cbn [negb]. change ((1 <=? 4)%Z && (4 <=? 5)%Z) with true.
  cbn [negb]. eexists. split; [reflexivity|].
  apply (version_bits _ R).
Qed.

(** The digit of [n] that is [k] digits from the right, from the bits. *)
Lemma nibble_of_bits n k :
  (0 <= n)%Z ->
  Z.of_N ((Z.abs_N n / 16 ^ N.of_nat k) mod 16)
  = Z.land (Z.shiftr n (4 * Z.of_nat k)) 15.
Proof.
  intros H.
  rewrite N2Z.inj_mod, N2Z.inj_div, N2Z.inj_pow, N2Z.inj_abs_N, Z.abs_eq by lia.
  rewrite nat_N_Z.
  change 15%Z with (Z.ones 4). rewrite Z.land_ones by lia.
  rewrite Z.shiftr_div_pow2 by lia.
  rewrite Z.pow_mul_r by lia. reflexivity.
Qed.

End Uuid4Facts.

(** ** [get_suid] *)

Section GetSuidFacts.
Context {unicode : UnicodeData}.
Import Suid.

Lemma to_str_canonical4 n :
  (0 <= n < 2 ^ 128)%Z ->
  Z.land (Z.shiftr n 76) 15 = 4%Z ->
  Z.land (Z.shiftr n 62) 3 = 2%Z ->
  is_canonical_uuid4 (Uuid.to_str {| Uuid.int := n |}) = true.
Proof.
  intros R V4 Var. unfold Uuid.to_str. cbn [Uuid.int].
  rewrite (format_032x_fixed n R).
  pose proof (fixed_hex_length 32 (Z.abs_N n)) as L.
  pose proof (fixed_hex_lower 32 (Z.abs_N n)) as F.
  pose proof (fixed_hex_nth 32 (Z.abs_N n) 12 ltac:(lia)) as H12.
  pose proof (fixed_hex_nth 32 (Z.abs_N n) 16 ltac:(lia)) as H16.
  assert (D12 : (Z.abs_N n / 16 ^ N.of_nat (32 - 1 - 12)) mod 16 = 4).
  { apply N2Z.inj. rewrite nibble_of_bits by lia. exact V4. }
  assert (D16 : 8 <= (Z.abs_N n / 16 ^ N.of_nat (32 - 1 - 16)) mod 16 < 12).
  { pose proof (nibble_of_bits n (32 - 1 - 16) ltac:(lia)) as E.
    change (4 * Z.of_nat (32 - 1 - 16))%Z with 60%Z in E.
    change 15%Z with (Z.ones 4) in E. change 3%Z with (Z.ones 2) in Var.
    rewrite Z.land_ones in E, Var by lia.
    rewrite Z.shiftr_div_pow2 in E, Var by lia.
    change (2 ^ 62)%Z with (2 ^ 60 * 4)%Z in Var.
    rewrite <- Z.div_div in Var by lia.
    change (2 ^ 4)%Z with 16%Z in E. change (2 ^ 2)%Z with 4%Z in Var.
    revert E Var. generalize (n / 2 ^ 60)%Z.
    generalize ((Z.abs_N n / 16 ^ N.of_nat (32 - 1 - 16)) mod 16).
    intros d a E Var. clear - E Var. Z.div_mod_to_equations. lia. }
  rewrite D12 in H12.
  assert (H16' : existsb (N.eqb (nth 16 (Uuid.fixed_hex 32 (Z.abs_N n)) 0))
                   [56; 57; 97; 98] = true).
  { rewrite H16.
    set (d := (Z.abs_N n / 16 ^ N.of_nat (32 - 1 - 16)) mod 16) in *.
    assert (C : d = 8 \/ d = 9 \/ d = 10 \/ d = 11) by lia.
    destruct C as [-> | [-> | [-> | ->]]]; reflexivity. }
  clear H16 D12 D16.
  revert L F H12 H16'. generalize (Uuid.fixed_hex 32 (Z.abs_N n)). intros hex L F H12 H16.
  do 32 (destruct hex as [|? hex]; [discriminate|]).
  destruct hex; [|discriminate]. clear L.
  cbn [nth] in H12, H16.
  cbn [forallb] in F.
  repeat match goal with
  | H : _ && _ = true |- _ => apply andb_true_iff in H; destruct H
  end.
  unfold is_canonical_uuid4. change (py "-") with [45].
  cbv [Py.slice Py.slice_from Nat.sub firstn skipn app].
  cbn [nth]. rewrite H16, H12. change (Uuid.hexdigit 4 =? 52) with true.
  cbn [hyphenated firstn skipn length Nat.eqb forallb].
  rewrite !N.eqb_refl.
  repeat match goal with
  | H : is_lower_hex _ = true |- _ => rewrite H; clear H
  end.
  reflexivity.
Qed.

Lemma lower_hex_is_hex c : is_lower_hex c = true -> is_hex c = true.
Proof. unfold is_hex. intros ->. reflexivity. Qed.

Lemma canonical4_canonical s :
  is_canonical_uuid4 s = true -> is_canonical_uuid s = true.
Proof.
  unfold is_canonical_uuid4, is_canonical_uuid. intros H.
  apply andb_true_iff in H as [H _]. apply andb_true_iff in H as [H _].
  exact (hyphenated_weaken _ _ _ _ lower_hex_is_hex H).
Qed.

Lemma get_suid_canonical4 (urandom : list byte) :
  length urandom = 16%nat ->
  exists s, get_suid urandom = Return s /\ is_canonical_uuid4 s = true.
Proof.
  intros L. destruct (uuid4_returns urandom L) as (n & E & R & V4 & Var).
  unfold get_suid. rewrite E. cbn [bind].
  eexists. split; [reflexivity|].
  exact (to_str_canonical4 n R V4 Var).
Qed.

(** C7. Every string that [get_suid] returns is a version-4 UUID in
    canonical lowercase hyphenated form, and [check_suid] accepts it, on the
    UUID path: what is left after an optional [conv_] never has 48
    characters. *)
Theorem get_suid_valid (urandom : list byte) :
  length urandom = 16%nat ->
  exists s, get_suid urandom = Return s
            /\ is_canonical_uuid4 s = true
            /\ length (normalize_conversation_id s) <> 48%nat
            /\ check_suid (PyStr s) = Return true.
Proof.
  intros L. destruct (get_suid_canonical4 urandom L) as (s & E & C).
  exists s. split; [exact E|]. split; [exact C|].
  apply canonical4_canonical in C.
  split; [|apply check_suid_canonical, C].
  apply canonical_digits in C as (_ & _ & P & L36).
  unfold normalize_conversation_id. rewrite P, L36. discriminate.
Qed.

(** C6. None of the four operations raises: [check_suid] returns a boolean
    for every value, [False] for one that is no string; the two conversions
    are total on strings and only add or remove the prefix, whatever the
    string; [get_suid] returns a string. *)
Theorem identifier_operations_never_raise :
  (forall v, exists b, check_suid v = Return b)
  /\ (forall v, isinstance_str v = false -> check_suid v = Return false)
  /\ (forall x, to_llama_stack_conversation_id x
                = py "conv_" ++ normalize_conversation_id x)
  /\ (forall x, Py.startswith x (py "conv_") = false ->
                normalize_conversation_id x = x)
  /\ (forall x, Py.startswith x (py "conv_") = true ->
                to_llama_stack_conversation_id x = x)
  /\ (forall urandom, length urandom = 16%nat ->
        exists s, get_suid urandom = Return s).
Proof.
  repeat split.
  - intros v. destruct v as [ |b|z|s|l|d]; try (eexists; reflexivity).
    rewrite check_suid_str. eauto.
  - apply check_suid_not_str.
  - intros x. unfold to_llama_stack_conversation_id, normalize_conversation_id.
    destruct (Py.startswith x (py "conv_")) eqn:P; cbn [negb]; [|reflexivity].
    exact (startswith_split _ _ P).
  - intros x P. unfold normalize_conversation_id. now rewrite P.
  - intros x P. unfold to_llama_stack_conversation_id. now rewrite P.
  - intros urandom L. destruct (get_suid_canonical4 urandom L) as (s & E & _). eauto.
Qed.

End GetSuidFacts.

(** ** The identifier properties on concrete identifiers *)

Section Instances.
Import Suid.

Example get_suid_example :
  get_suid [x55; x0e; x84; x00; xe2; x9b; xf1; xd4;
            x27; x16; x44; x66; x55; x44; x00; x00]
  = Return (py "550e8400-e29b-41d4-a716-446655440000").
Proof. vm_compute. reflexivity. Qed.

Lemma get_suid_valid_witness :
  length [x55; x0e; x84; x00; xe2; x9b; xf1; xd4;
          x27; x16; x44; x66; x55; x44; x00; x00] = 16%nat
  /\ exists s,
       get_suid [x55; x0e; x84; x00; xe2; x9b; xf1; xd4;
                 x27; x16; x44; x66; x55; x44; x00; x00] = Return s
       /\ is_canonical_uuid4 s = true
       /\ length (normalize_conversation_id s) <> 48%nat
       /\ check_suid (unicode := ascii_only) (PyStr s) = Return true.
Proof.
  split; [reflexivity|].
  apply (get_suid_valid (unicode := ascii_only)
           [x55; x0e; x84; x00; xe2; x9b; xf1; xd4;
            x27; x16; x44; x66; x55; x44; x00; x00]).
  reflexivity.
Defined.

Lemma identifier_operations_never_raise_witness :
  check_suid (unicode := ascii_only) (PyInt 123) = Return false
  /\ exists s, get_suid (repeat x00 16) = Return s.
Proof.
  destruct (identifier_operations_never_raise (unicode := ascii_only))
    as (_ & H & _ & _ & _ & G).
  split; [apply H; reflexivity | apply G; reflexivity].
Defined.

Lemma check_suid_uuid_path_witness :
  length (normalize_conversation_id (py "550e8400-e29b-41d4-a716-446655440000"))
    <> 48%nat
  /\ check_suid (unicode := ascii_only)
       (PyStr (py "550e8400-e29b-41d4-a716-446655440000")) = Return true.
Proof.
  assert (H : length (normalize_conversation_id
                        (py "550e8400-e29b-41d4-a716-446655440000")) <> 48%nat)
    by (intros E; vm_compute in E; discriminate E).
  split; [exact H|].
  destruct (check_suid_uuid_path (unicode := ascii_only) _ H)
    as (_ & _ & _ & _ & C & _).
  apply C. reflexivity.
Defined.

(** C4 as stated fails: 32 hexadecimal digits without hyphens are no
    canonical UUID, they take the UUID path, and [check_suid] accepts them. *)
Lemma check_suid_accepts_unhyphenated :
  Nat.eqb (length (normalize_conversation_id
                     (py "550e8400e29b41d4a716446655440000"))) 48 = false
  /\ is_canonical_uuid (py "550e8400e29b41d4a716446655440000") = false
  /\ check_suid (unicode := ascii_only)
       (PyStr (py "550e8400e29b41d4a716446655440000")) = Return true.
Proof. repeat split; vm_compute; reflexivity. Qed.

Lemma normalize_preserves_validity_witness :
  check_suid (unicode := ascii_only)
    (PyStr (py "conv_0123456789abcdef0123456789ABCDEF0123456789abcdef"))
  = Return true
  /\ check_suid (unicode := ascii_only)
       (PyStr (normalize_conversation_id
                 (py "conv_0123456789abcdef0123456789ABCDEF0123456789abcdef")))
     = Return true.
Proof.
  assert (H : check_suid (unicode := ascii_only)
                (PyStr (py "conv_0123456789abcdef0123456789ABCDEF0123456789abcdef"))
              = Return true) by (vm_compute; reflexivity).
  split; [exact H|].
  exact (normalize_preserves_validity _ H).
Defined.

End Instances.

(** * Further properties of the identifiers *)

Section IdentifierFacts.
Context {unicode : UnicodeData}.
Import Suid.

(** What a valid identifier that carries the prefix is made of. *)
Lemma valid_prefixed h :
  check_suid (PyStr (py "conv_" ++ h)) = Return true ->
  length h = 48%nat /\ returns (Py.int_16 h) = true
  /\ Py.startswith h (py "conv_") = false.
Proof.
  intros H. rewrite check_suid_str, normalize_prefixed in H.
  destruct (Nat.eqb (length h) 48) eqn:L.
  - injection H as R. apply Nat.eqb_eq in L. repeat split; try assumption.
    destruct (Py.startswith h (py "conv_")) eqn:Ph; [|reflexivity].
    apply startswith_split in Ph. rewrite Ph in R.
    change (py "conv_") with [99; 111; 110; 118; 95] in R. cbn [app] in R.
    rewrite int_16_co in R. discriminate.
  - rewrite UUID_of_hex_conv in H. discriminate.
Qed.

Lemma prefixed_split s :
  Py.startswith s (py "conv_") = true ->
  s = py "conv_" ++ normalize_conversation_id s.
Proof.
  intros P. unfold normalize_conversation_id. rewrite P.
  exact (startswith_split _ _ P).
Qed.

Lemma valid_prefixed_parts s :
  check_suid (PyStr s) = Return true ->
  Py.startswith s (py "conv_") = true ->
  length (normalize_conversation_id s) = 48%nat
  /\ Py.startswith (normalize_conversation_id s) (py "conv_") = false.
Proof.
  intros H P. pose proof (prefixed_split s P) as E.
  rewrite E in H. apply valid_prefixed in H as (L & _ & Q). auto.
Qed.

(** X1. Forty-eight hexadecimal digits, in either case, are a valid
    identifier, bare and behind the prefix [conv_]. *)
Theorem hex48_token_valid (h : str) :
  forallb is_hex h = true -> length h = 48%nat ->
  check_suid (PyStr h) = Return true
  /\ check_suid (PyStr (to_llama_stack_conversation_id h)) = Return true.
Proof.
  intros F L. destruct (check_suid_hex48 h F L) as [H1 H2]. split; [exact H1|].
  unfold to_llama_stack_conversation_id.
  pose proof (hex_not_prefixed h F) as N. unfold normalize_conversation_id in N.
  destruct (Py.startswith h (py "conv_")) eqn:P; cbn [negb]; [exact H1 | exact H2].
Qed.

(** X2. A string of hexadecimal digits whose length is neither 48 nor 32 is
    rejected: 47 or 49 digits are no identifier, nor is the empty string. *)
Theorem hex_digits_other_length_invalid (h : str) :
  forallb is_hex h = true -> length h <> 48%nat -> length h <> 32%nat ->
  check_suid (PyStr h) = Return false.
Proof. apply check_suid_hex_other_length. Qed.

(** X3. A valid identifier that begins with [conv_] has exactly 53
    characters, and the 48 after the prefix are read by [int(_, 16)]. *)
Theorem valid_prefixed_length (s : str) :
  check_suid (PyStr s) = Return true ->
  Py.startswith s (py "conv_") = true ->
  length s = 53%nat
  /\ length (normalize_conversation_id s) = 48%nat
  /\ returns (Py.int_16 (normalize_conversation_id s)) = true.
Proof.
  intros H P. pose proof (prefixed_split s P) as E.
  rewrite E in H. apply valid_prefixed in H as (L & R & _).
  repeat split; try assumption.
  rewrite E, length_app, L. reflexivity.
Qed.

Lemma replace_from_length old k s :
  (length (Py.replace_from old [] k s) <= length s)%nat.
Proof.
  revert k. induction s as [|c s IH]; intros k.
  - simpl. destruct k, old; simpl; lia.
  - cbn [Py.replace_from]. destruct k as [|k].
    + destruct (Py.startswith (c :: s) old).
      * destruct old as [|o old'].
        -- cbn [app length]. specialize (IH 0%nat). lia.
        -- cbn [app length]. specialize (IH (length old')). lia.
      * cbn [length]. specialize (IH 0%nat). lia.
    + cbn [length]. specialize (IH k). lia.
Qed.

Lemma rstrip_by_length f s : (length (Py.rstrip_by f s) <= length s)%nat.
Proof.
  unfold Py.rstrip_by. rewrite length_rev.
  pose proof (lstrip_by_length f (rev s)) as H. now rewrite length_rev in H.
Qed.

(** [UUID(hex)] only deletes characters. *)
Lemma hex_payload_length s : (length (Uuid.hex_payload s) <= length s)%nat.
Proof.
  unfold Uuid.hex_payload, Py.replace, Py.strip_chars.
  repeat match goal with
  | |- (length (Py.replace_from ?o [] 0 ?x) <= _)%nat =>
      pose proof (replace_from_length o 0 x); 
      apply Nat.le_trans with (length x); [assumption|]
  | |- (length (Py.rstrip_by ?f ?x) <= _)%nat =>
      pose proof (rstrip_by_length f x);
      apply Nat.le_trans with (length x); [assumption|]
  | |- (length (Py.lstrip_by ?f ?x) <= _)%nat =>
      pose proof (lstrip_by_length f x);
      apply Nat.le_trans with (length x); [assumption|]
  end.
  lia.
Qed.

(** X4. Every valid identifier has at least 32 characters: shorter
    strings, the empty one among them, are rejected. *)
Theorem valid_identifier_min_length (s : str) :
  check_suid (PyStr s) = Return true -> (32 <= length s)%nat.
Proof.
  intros H. rewrite check_suid_str in H.
  destruct (Nat.eqb (length (normalize_conversation_id s)) 48) eqn:L.
  - apply Nat.eqb_eq in L. unfold normalize_conversation_id, Py.slice_from in L.
    destruct (Py.startswith s (py "conv_")); [rewrite length_skipn in L|]; lia.
  - injection H as H. rewrite UUID_of_hex_returns in H.
    apply andb_true_iff in H as [H _]. apply Nat.eqb_eq in H.
    pose proof (hex_payload_length s). lia.
Qed.

Lemma check_suid_to_llama_unprefixed s :
  Py.startswith s (py "conv_") = false ->
  check_suid (PyStr (to_llama_stack_conversation_id s))
  = Return (Nat.eqb (length s) 48 && returns (Py.int_16 s)).
Proof.
  intros P. unfold to_llama_stack_conversation_id. rewrite P. cbn [negb].
  rewrite check_suid_str, normalize_prefixed.
  destruct (Nat.eqb (length s) 48); [reflexivity|].
  now rewrite UUID_of_hex_conv.
Qed.

(** X5. Adding the prefix keeps a valid identifier valid exactly when it
    is a 48-character token; a canonical UUID with the prefix is rejected. *)
Theorem to_llama_stack_validity (s : str) :
  check_suid (PyStr s) = Return true ->
  (check_suid (PyStr (to_llama_stack_conversation_id s)) = Return true
   <-> length (normalize_conversation_id s) = 48%nat)
  /\ (is_canonical_uuid s = true ->
      check_suid (PyStr (to_llama_stack_conversation_id s)) = Return false).
Proof.
  intros H. split.
  - destruct (Py.startswith s (py "conv_")) eqn:P.
    + destruct (valid_prefixed_parts s H P) as [L _].
      unfold to_llama_stack_conversation_id. rewrite P. cbn [negb]. tauto.
    + rewrite (check_suid_to_llama_unprefixed s P).
      assert (N : normalize_conversation_id s = s)
        by (unfold normalize_conversation_id; now rewrite P).
      rewrite N. rewrite check_suid_str, N in H.
      destruct (Nat.eqb (length s) 48) eqn:L.
      * injection H as ->. apply Nat.eqb_eq in L. tauto.
      * apply Nat.eqb_neq in L. cbn [andb]. split; [discriminate | tauto].
  - intros C. apply canonical_digits in C as (_ & _ & P & L36).
    rewrite (check_suid_to_llama_unprefixed s P), L36. reflexivity.
Qed.

(** X6. How the two conversions compose.  Normalizing after adding the
    prefix is normalizing, for every string.  On a valid identifier
    normalizing twice is normalizing once, and adding the prefix after
    normalizing is adding the prefix. *)
Theorem conversions_compose :
  (forall x, normalize_conversation_id (to_llama_stack_conversation_id x)
             = normalize_conversation_id x)
  /\ (forall s, check_suid (PyStr s) = Return true ->
        normalize_conversation_id (normalize_conversation_id s)
        = normalize_conversation_id s
        /\ to_llama_stack_conversation_id (normalize_conversation_id s)
           = to_llama_stack_conversation_id s).
Proof.
  split.
  - intros x. unfold to_llama_stack_conversation_id.
    destruct (Py.startswith x (py "conv_")) eqn:P; cbn [negb]; [reflexivity|].
    rewrite normalize_prefixed. unfold normalize_conversation_id. now rewrite P.
  - intros s H. destruct (Py.startswith s (py "conv_")) eqn:P.
    + destruct (valid_prefixed_parts s H P) as [_ Q]. split.
      * unfold normalize_conversation_id at 1. now rewrite Q.
      * unfold to_llama_stack_conversation_id. rewrite Q, P. cbn [negb].
        symmetry. apply prefixed_split, P.
    + assert (N : normalize_conversation_id s = s)
        by (unfold normalize_conversation_id; now rewrite P).
      now rewrite !N.
Qed.

(** X13. When the part after an optional [conv_] has 48 characters the
    reading as a base-16 integer alone decides: [uuid.UUID] is not tried, so
    that a text [uuid.UUID] accepts is rejected when it has 48 characters
    that are no number. *)
Theorem path_48_decides (s : str) :
  length (normalize_conversation_id s) = 48%nat ->
  check_suid (PyStr s) = Return (returns (Py.int_16 (normalize_conversation_id s))).
Proof. intros L. now rewrite check_suid_str, L. Qed.

(** *** The text of a UUID read back *)

Lemma digit_of_hexdigit d : d < 16 -> Py.PyLong_DigitValue (Uuid.hexdigit d) = d.
Proof.
  intros H. unfold Uuid.hexdigit, Py.PyLong_DigitValue.
  destruct (d <? 10) eqn:E.
  - apply N.ltb_lt in E.
    replace ((48 <=? 48 + d) && (48 + d <=? 57)) with true; [lia|].
    symmetry. apply andb_true_iff. split; apply N.leb_le; lia.
  - apply N.ltb_ge in E.
    replace ((48 <=? 87 + d) && (87 + d <=? 57)) with false.
    + replace ((97 <=? 87 + d) && (87 + d <=? 122)) with true; [lia|].
      symmetry. apply andb_true_iff. split; apply N.leb_le; lia.
    + symmetry. apply andb_false_iff. right. apply N.leb_gt. lia.
Qed.

Lemma scan_digits_hex_value s prev acc :
  forallb is_hex s = true -> s <> [] ->
  Py.scan_digits 16 prev acc s
  = Some (fold_left (fun a c => (16 * a + Z.of_N (Py.PyLong_DigitValue c))%Z) s acc,
          []).
Proof.
  revert prev acc. induction s as [|c s IH]; intros prev acc H Hne; [congruence|].
  simpl in H. apply andb_true_iff in H as [Hc Hs].
  cbn [Py.scan_digits fold_left].
  rewrite (is_hex_not c 95 Hc eq_refl), (is_hex_digit _ Hc).
  change (Z.of_N 16) with 16%Z.
  destruct s as [|c' s'].
  - cbn [Py.scan_digits fold_left]. now rewrite (is_hex_not c 95 Hc eq_refl).
  - apply IH; [exact Hs | discriminate].
Qed.

(** The number that [int(s, 16)] returns on hexadecimal digits. *)
Lemma int_16_hex_value s :
  forallb is_hex s = true -> s <> [] ->
  Py.int_16 s
  = Return (fold_left (fun a c => (16 * a + Z.of_N (Py.PyLong_DigitValue c))%Z) s 0%Z).
Proof.
  intros H Hne. unfold Py.int_16. rewrite (transform_hex _ H).
  destruct s as [|c s]; [congruence|].
  pose proof H as H'. simpl in H'. apply andb_true_iff in H' as [Hc Hs].
  unfold Py.PyLong_FromString_16.
  assert (Hsp : Py.Py_ISSPACE c = false).
  { destruct (Py.Py_ISSPACE c) eqn:E; [exfalso|reflexivity].
    unfold Py.Py_ISSPACE in E. unfold is_hex, is_lower_hex in Hc. char_lia. }
  cbn [Py.lstrip_by]. rewrite Hsp.
  cbn [Py.at_char].
  rewrite (is_hex_not c 43 Hc eq_refl), (is_hex_not c 45 Hc eq_refl).
  cbn [orb Py.at_char].
  assert (Hx : ((c =? 48) && (Py.at_char 120 (tl (c :: s)) || Py.at_char 88 (tl (c :: s)))) = false).
  { destruct s as [|x s']; [cbn; now rewrite andb_false_r|].
    simpl in Hs. apply andb_true_iff in Hs as [Hx _]. cbn [tl Py.at_char].
    rewrite (is_hex_not x 120 Hx eq_refl), (is_hex_not x 88 Hx eq_refl).
    now rewrite andb_false_r. }
  rewrite Hx. cbn [Py.at_char]. rewrite (is_hex_not c 95 Hc eq_refl).
  rewrite (scan_digits_hex_value (c :: s) 0 0%Z H Hne).
  cbn [length Nat.eqb Py.lstrip_by]. now rewrite Z.mul_1_l.
Qed.

Lemma fixed_hex_value k n acc :
  fold_left (fun a c => (16 * a + Z.of_N (Py.PyLong_DigitValue c))%Z)
    (Uuid.fixed_hex k n) acc
  = (acc * Z.of_N (16 ^ N.of_nat k) + Z.of_N (n mod 16 ^ N.of_nat k))%Z.
Proof.
  revert n. induction k as [|k IH]; intros n.
  - cbn [Uuid.fixed_hex fold_left]. change (16 ^ N.of_nat 0) with 1.
    rewrite N.mod_1_r. change (Z.of_N 1) with 1%Z. change (Z.of_N 0) with 0%Z. lia.
  - cbn [Uuid.fixed_hex]. rewrite fold_left_app. cbn [fold_left]. rewrite IH.
    rewrite digit_of_hexdigit by (apply N.mod_lt; discriminate).
    rewrite Nat2N.inj_succ, N.pow_succ_r', N.Div0.mod_mul_r.
    rewrite N2Z.inj_add, !N2Z.inj_mul. change (Z.of_N 16) with 16%Z. ring.
Qed.

Lemma slice_rest i j (l : str) :
  (i <= j)%nat -> Py.slice i j l ++ skipn j l = skipn i l.
Proof.
  intros H. unfold Py.slice.
  replace (skipn j l) with (skipn (j - i) (skipn i l))
    by (rewrite skipn_skipn; f_equal; lia).
  apply firstn_skipn.
Qed.

Lemma forallb_firstn {A} (f : A -> bool) n l :
  forallb f l = true -> forallb f (firstn n l) = true.
Proof.
  intros H. rewrite <- (firstn_skipn n l), forallb_app in H.
  now apply andb_true_iff in H.
Qed.

Lemma forallb_skipn {A} (f : A -> bool) n l :
  forallb f l = true -> forallb f (skipn n l) = true.
Proof.
  intros H. rewrite <- (firstn_skipn n l), forallb_app in H.
  now apply andb_true_iff in H.
Qed.

(** Without its hyphens the text of a UUID is its 32 digits. *)
Lemma to_str_digits n :
  (0 <= n < 2 ^ 128)%Z ->
  filter not_hyphen (Uuid.to_str {| Uuid.int := n |})
  = Uuid.fixed_hex 32 (Z.abs_N n).
Proof.
  intros R. unfold Uuid.to_str. cbn [Uuid.int]. rewrite (format_032x_fixed n R).
  pose proof (fixed_hex_lower 32 (Z.abs_N n)) as F.
  generalize dependent (Uuid.fixed_hex 32 (Z.abs_N n)). intros hex F.
  assert (Fh : forallb is_hex hex = true).
  { rewrite forallb_forall in F |- *. intros x Hx. apply lower_hex_is_hex, F, Hx. }
  change (py "-") with [45].
  repeat (rewrite filter_app; cbn [filter];
          change (not_hyphen 45) with false; cbv iota).
  unfold Py.slice_from.
  rewrite !filter_hex
    by (unfold Py.slice; auto using forallb_firstn, forallb_skipn).
  cbn [app].
  rewrite (slice_rest 16 20), (slice_rest 12 16), (slice_rest 8 12),
    (slice_rest 0 8) by lia.
  reflexivity.
Qed.

Lemma UUID_of_hex_to_str n :
  (0 <= n < 2 ^ 128)%Z ->
  Uuid.UUID_of_hex (Uuid.to_str {| Uuid.int := n |}) = Return {| Uuid.int := n |}.
Proof.
  intros R. unfold Uuid.UUID_of_hex.
  pose proof (to_str_digits n R) as D.
  pose proof (fixed_hex_lower 32 (Z.abs_N n)) as F.
  assert (Fh : forallb is_hex (Uuid.fixed_hex 32 (Z.abs_N n)) = true).
  { rewrite forallb_forall in F |- *. intros x Hx. apply lower_hex_is_hex, F, Hx. }
  rewrite hex_payload_plain by (rewrite D; exact Fh).
  rewrite D, fixed_hex_length. cbn [Nat.eqb negb].
  rewrite int_16_hex_value;
    [|exact Fh | apply (length_succ_nonempty _ 31), fixed_hex_length].
  rewrite fixed_hex_value. cbn [bind].
  assert (E : (0 * Z.of_N (16 ^ N.of_nat 32)
               + Z.of_N (Z.abs_N n mod 16 ^ N.of_nat 32))%Z = n).
  { rewrite N.mod_small.
    - rewrite N2Z.inj_abs_N, Z.abs_eq; lia.
    - apply N2Z.inj_lt. rewrite N2Z.inj_abs_N, Z.abs_eq by lia.
      change (Z.of_N (16 ^ N.of_nat 32)) with (2 ^ 128)%Z. lia. }
  rewrite E.
  assert (I : Uuid.in_range n = true).
  { unfold Uuid.in_range. apply andb_true_iff.
    split; [apply Z.leb_le | apply Z.ltb_lt]; [lia|].
    change (Z.shiftl 1 128) with (2 ^ 128)%Z. lia. }
  now rewrite I.
Qed.

(** X7. The text of a UUID, read back by [uuid.UUID], is that UUID: the
    parse that [check_suid] runs inverts the rendering that [get_suid]
    returns, so two UUIDs with the same text are equal. *)
Theorem uuid_text_round_trip (u : Uuid.UUID) :
  (0 <= Uuid.int u < 2 ^ 128)%Z ->
  Uuid.UUID_of_hex (Uuid.to_str u) = Return u
  /\ (forall u', (0 <= Uuid.int u' < 2 ^ 128)%Z ->
        Uuid.to_str u' = Uuid.to_str u -> u' = u).
Proof.
  intros R. destruct u as [n]. cbn [Uuid.int] in R. split.
  - apply UUID_of_hex_to_str, R.
  - intros [n'] R' E. cbn [Uuid.int] in R'.
    pose proof (UUID_of_hex_to_str n' R') as H. rewrite E in H.
    rewrite (UUID_of_hex_to_str n R) in H. now injection H as ->.
Qed.

(** X8. The string that [get_suid] returns parses back, by [uuid.UUID],
    to the UUID that [uuid.uuid4] made; two calls return the same string
    only if [uuid4] made the same UUID. *)
Theorem get_suid_parses_back (urandom : list byte) :
  length urandom = 16%nat ->
  exists u s, Uuid.uuid4 urandom = Return u
              /\ get_suid urandom = Return s
              /\ Uuid.UUID_of_hex s = Return u
              /\ (forall urandom', length urandom' = 16%nat ->
                    get_suid urandom' = Return s ->
                    Uuid.uuid4 urandom' = Return u).
Proof.
  intros L. destruct (uuid4_returns urandom L) as (n & E & R & _).
  exists {| Uuid.int := n |}, (Uuid.to_str {| Uuid.int := n |}).
  unfold get_suid. rewrite E. cbn [bind].
  repeat split; [apply UUID_of_hex_to_str, R|].
  intros b' L' H. destruct (uuid4_returns b' L') as (n' & E' & R' & _).
  rewrite E' in H |- *. cbn [bind] in H. injection H as H.
  pose proof (UUID_of_hex_to_str n' R') as P. rewrite H in P.
  rewrite (UUID_of_hex_to_str n R) in P. now injection P as ->.
Qed.

(** *** Other texts of a UUID *)

Lemma canonical_chars s x :
  is_canonical_uuid s = true -> In x s -> is_hex x = true \/ x = 45.
Proof.
  intros C Hx. apply canonical_digits in C as (_ & F & _ & _).
  destruct (x =? 45) eqn:E; [apply N.eqb_eq in E; auto|].
  left. rewrite forallb_forall in F. apply F.
  apply filter_In. split; [exact Hx|]. unfold not_hyphen. now rewrite E.
Qed.

Lemma canonical_payload s :
  is_canonical_uuid s = true ->
  length (Uuid.hex_payload s) = 32%nat
  /\ forallb is_hex (Uuid.hex_payload s) = true.
Proof.
  intros C. apply canonical_digits in C as (L & F & _ & _).
  now rewrite (hex_payload_plain _ F).
Qed.

Lemma lstrip_by_app_drop f a s :
  forallb f a = true -> Py.lstrip_by f (a ++ s) = Py.lstrip_by f s.
Proof.
  induction a as [|c a IH]; simpl; [reflexivity|].
  intros H. apply andb_true_iff in H as [Hc Ha]. rewrite Hc. apply IH, Ha.
Qed.

(** Braces around a string without braces are stripped. *)
Lemma strip_chars_braced s :
  (forall x, In x s -> Py.mem x [123; 125] = false) ->
  Py.strip_chars [123; 125] (123 :: s ++ [125]) = s.
Proof.
  intros H. destruct s as [|c s]; [reflexivity|].
  unfold Py.strip_chars.
  change (123 :: (c :: s) ++ [125]) with ([123] ++ (c :: s) ++ [125]).
  rewrite lstrip_by_app_drop by reflexivity.
  assert (E : Py.lstrip_by (fun c => Py.mem c [123; 125]) ((c :: s) ++ [125])
              = (c :: s) ++ [125]).
  { cbn [app Py.lstrip_by]. now rewrite (H c (or_introl eq_refl)). }
  rewrite E. unfold Py.rstrip_by. rewrite rev_app_distr.
  rewrite lstrip_by_app_drop by reflexivity.
  apply (rstrip_by_id _ (c :: s) H).
Qed.

Lemma canonical_no_char s c :
  is_canonical_uuid s = true -> is_hex c = false -> c <> 45 -> ~ In c s.
Proof.
  intros C Hc Hn Hin. destruct (canonical_chars s c C Hin); congruence.
Qed.

(** The prefix [urn:uuid:] and a pair of braces leave the digits that
    [UUID(hex)] reads unchanged. *)
Lemma hex_payload_urn s :
  is_canonical_uuid s = true ->
  Uuid.hex_payload (py "urn:uuid:" ++ s) = Uuid.hex_payload s.
Proof.
  intros C.
  assert (U : ~ In 117 s) by (apply (canonical_no_char s 117 C); [reflexivity | discriminate]).
  unfold Uuid.hex_payload.
  change (py "urn:") with [117; 114; 110; 58].
  change (py "uuid:") with [117; 117; 105; 100; 58].
  change (py "urn:uuid:" ++ s)
    with (117 :: 114 :: 110 :: 58 :: 117 :: 117 :: 105 :: 100 :: 58 :: s).
  assert (E1 : Py.replace [117; 114; 110; 58] []
                 (117 :: 114 :: 110 :: 58 :: 117 :: 117 :: 105 :: 100 :: 58 :: s)
               = 117 :: 117 :: 105 :: 100 :: 58 :: s).
  { unfold Py.replace. simpl.
    change (Py.replace_from [117; 114; 110; 58] [] 0 s)
      with (Py.replace [117; 114; 110; 58] [] s).
    now rewrite replace_absent. }
  assert (E2 : Py.replace [117; 117; 105; 100; 58] []
                 (117 :: 117 :: 105 :: 100 :: 58 :: s) = s).
  { unfold Py.replace. simpl.
    change (Py.replace_from [117; 117; 105; 100; 58] [] 0 s)
      with (Py.replace [117; 117; 105; 100; 58] [] s).
    now rewrite replace_absent. }
  rewrite E1, E2.
  now rewrite (replace_absent 117 [114; 110; 58] [] s),
    (replace_absent 117 [117; 105; 100; 58] [] s).
Qed.

Lemma hex_payload_braced s :
  is_canonical_uuid s = true ->
  Uuid.hex_payload (py "{" ++ s ++ py "}") = Uuid.hex_payload s.
Proof.
  intros C.
  assert (U : ~ In 117 s) by (apply (canonical_no_char s 117 C); [reflexivity | discriminate]).
  assert (B : forall x, In x s -> Py.mem x [123; 125] = false).
  { intros x Hx. unfold Py.mem. cbn [existsb].
    destruct (canonical_chars s x C Hx) as [Hh| ->]; [|reflexivity].
    now rewrite (is_hex_not x 123 Hh eq_refl), (is_hex_not x 125 Hh eq_refl). }
  unfold Uuid.hex_payload.
  change (py "urn:") with [117; 114; 110; 58].
  change (py "uuid:") with [117; 117; 105; 100; 58].
  change (py "{}") with [123; 125].
  change (py "{" ++ s ++ py "}") with (123 :: s ++ [125]).
  assert (U' : ~ In 117 (123 :: s ++ [125])).
  { intros [E|E]; [discriminate|]. apply in_app_or in E as [E|[E|[]]];
      [tauto | discriminate]. }
  rewrite (replace_absent 117 [114; 110; 58] [] _ U'),
    (replace_absent 117 [117; 105; 100; 58] [] _ U').
  rewrite (replace_absent 117 [114; 110; 58] [] s U),
    (replace_absent 117 [117; 105; 100; 58] [] s U).
  now rewrite (strip_chars_braced s B), (strip_chars_id _ s B).
Qed.

(** X9. [check_suid] accepts more texts of a UUID than the canonical one:
    a canonical UUID behind [urn:uuid:], and one between braces, are valid
    identifiers. *)
Theorem urn_and_braces_accepted (s : str) :
  is_canonical_uuid s = true ->
  check_suid (PyStr (py "urn:uuid:" ++ s)) = Return true
  /\ check_suid (PyStr (py "{" ++ s ++ py "}")) = Return true.
Proof.
  intros C. destruct (canonical_payload s C) as [L F].
  pose proof C as D. apply canonical_digits in D as (_ & _ & _ & L36).
  split; apply check_suid_payload.
  - unfold normalize_conversation_id.
    change (Py.startswith (py "urn:uuid:" ++ s) (py "conv_")) with false.
    cbv iota. rewrite length_app, L36. discriminate.
  - now rewrite (hex_payload_urn s C).
  - now rewrite (hex_payload_urn s C).
  - unfold normalize_conversation_id.
    change (Py.startswith (py "{" ++ s ++ py "}") (py "conv_")) with false.
    cbv iota. rewrite !length_app, L36. discriminate.
  - now rewrite (hex_payload_braced s C).
  - now rewrite (hex_payload_braced s C).
Qed.

End IdentifierFacts.

(** * Further properties of the request models *)

Section QuestionFacts.
Import Pydantic Requests.

Lemma lstrip_by_hd f d s :
  f d = false -> f (hd d (Py.lstrip_by f s)) = false.
Proof.
  intros Hd. induction s as [|c s IH]; simpl; [exact Hd|].
  destruct (f c) eqn:E; [exact IH | exact E].
Qed.

Lemma last_rev_hd (l : str) d : last (rev l) d = hd d l.
Proof. destruct l as [|c l]; [reflexivity|]. cbn [rev hd]. apply last_last. Qed.

Lemma rstrip_by_last f d s :
  f d = false -> f (last (Py.rstrip_by f s) d) = false.
Proof. intros Hd. unfold Py.rstrip_by. rewrite last_rev_hd. now apply lstrip_by_hd. Qed.

Lemma lstrip_by_snoc_cases f l a :
  Py.lstrip_by f (l ++ [a])
  = match Py.lstrip_by f l with
    | [] => if f a then [] else [a]
    | t => t ++ [a]
    end.
Proof.
  induction l as [|x l IH]; simpl; [destruct (f a); reflexivity|].
  destruct (f x); [exact IH | reflexivity].
Qed.

(** What is left of a string after [rstrip] begins as the string does. *)
Lemma rstrip_by_hd f d s :
  Py.rstrip_by f s <> [] -> hd d (Py.rstrip_by f s) = hd d s.
Proof.
  destruct s as [|a s]; [reflexivity|].
  unfold Py.rstrip_by. cbn [rev]. rewrite lstrip_by_snoc_cases.
  destruct (Py.lstrip_by f (rev s)) as [|x t].
  - destruct (f a); [intros H; exfalso; apply H; reflexivity | reflexivity].
  - intros _. rewrite rev_app_distr. reflexivity.
Qed.

Lemma lstrip_by_fix f d s :
  f (hd d s) = false -> s <> [] -> Py.lstrip_by f s = s.
Proof. destruct s as [|c s]; [congruence|]. simpl. now intros ->. Qed.

Lemma rstrip_by_fix f d s :
  f (last s d) = false -> s <> [] -> Py.rstrip_by f s = s.
Proof.
  intros H Hne. unfold Py.rstrip_by.
  rewrite (lstrip_by_fix f d (rev s)).
  - apply rev_involutive.
  - rewrite <- (rev_involutive s) in H. now rewrite last_rev_hd in H.
  - intros E. apply Hne. now rewrite <- (rev_involutive s), E.
Qed.

(** A trimmed string has no whitespace at either end, and trimming it again
    changes nothing. *)
Lemma strip_ends q :
  Py_UNICODE_ISSPACE (hd 0 (Py.strip q)) = false
  /\ Py_UNICODE_ISSPACE (last (Py.strip q) 0) = false
  /\ Py.strip (Py.strip q) = Py.strip q.
Proof.
  assert (H1 : Py_UNICODE_ISSPACE (hd 0 (Py.strip q)) = false).
  { unfold Py.strip.
    destruct (Py.rstrip_by Py_UNICODE_ISSPACE (Py.lstrip_by Py_UNICODE_ISSPACE q))
      as [|c t] eqn:E; [reflexivity|].
    rewrite <- E, rstrip_by_hd by (rewrite E; discriminate).
    now apply lstrip_by_hd. }
  assert (H2 : Py_UNICODE_ISSPACE (last (Py.strip q) 0) = false)
    by (unfold Py.strip; now apply rstrip_by_last).
  repeat split; try assumption.
  destruct (Py.strip q) as [|c t] eqn:E; [reflexivity|].
  rewrite <- E in *. unfold Py.strip at 1.
  rewrite (lstrip_by_fix _ 0 (Py.strip q) H1) by (rewrite E; discriminate).
  apply (rstrip_by_fix _ 0 (Py.strip q) H2). rewrite E. discriminate.
Qed.

Lemma whitespace_strip_nil q :
  forallb Py_UNICODE_ISSPACE q = true -> Py.strip q = [].
Proof.
  intros H. unfold Py.strip.
  assert (E : Py.lstrip_by Py_UNICODE_ISSPACE q = []).
  { induction q as [|c q IH]; [reflexivity|]. simpl in *.
    apply andb_true_iff in H as [Hc Hq]. rewrite Hc. apply IH, Hq. }
  now rewrite E.
Qed.

(** X10. [validate_question] raises exactly on the strings made of
    whitespace, the empty one included, and then with its [ValueError];
    what it returns is not empty, has no whitespace at either end, and is
    returned unchanged when validated again. *)
Theorem validate_question_trims :
  (forall v, validate_question v = Raise (ValueError question_message)
             <-> forallb Py_UNICODE_ISSPACE v = true)
  /\ (forall v s, validate_question v = Return s ->
        s = Py.strip v /\ s <> []
        /\ Py_UNICODE_ISSPACE (hd 0 s) = false
        /\ Py_UNICODE_ISSPACE (last s 0) = false
        /\ validate_question s = Return s).
Proof.
  split.
  - intros v. rewrite validate_question_spec. split.
    + destruct (Py.strip v) eqn:E; [|discriminate].
      intros _. apply strip_nil_whitespace, E.
    + intros H. now rewrite (whitespace_strip_nil v H).
  - intros v s. rewrite validate_question_spec.
    destruct (Py.strip v) as [|c t] eqn:E; [discriminate|].
    intros H. injection H as <-. rewrite <- E.
    destruct (strip_ends v) as (H1 & H2 & H3).
    repeat split; try assumption.
    + rewrite E. discriminate.
    + rewrite validate_question_spec, H3, E. reflexivity.
Qed.

Lemma get_input_source_equation (r : RlsapiV1InferRequest) :
  get_input_source r = combinedInput r.
Proof.
  destruct r as [q [si [co mi] [ou] sy cl] sk].
  unfold get_input_source, combinedInput. cbn [question context stdin
    attachments contents terminal output].
  destruct si, co, ou; cbn [truthy segment app Py.join];
    rewrite ?app_nil_r; reflexivity.
Qed.

(** X11. The question of a constructed request is trimmed and not empty,
    and the combined input begins with its first character, which is no
    whitespace. *)
Theorem constructed_question_trimmed (cfg : ConfigDict) (d : dict)
    (r : RlsapiV1InferRequest) :
  InferRequest_validate cfg d = Valid r ->
  question r <> []
  /\ Py.strip (question r) = question r
  /\ Py_UNICODE_ISSPACE (last (question r) 0) = false
  /\ exists c rest, get_input_source r = c :: rest
                    /\ hd 0 (question r) = c
                    /\ Py_UNICODE_ISSPACE c = false.
Proof.
  intros H. apply InferRequest_Valid_question in H as (q & _ & E & Hne).
  destruct (strip_ends q) as (H1 & H2 & H3). rewrite <- E in *.
  repeat split; try assumption.
  pose proof (get_input_source_equation r) as G.
  destruct (question r) as [|c t] eqn:Q; [congruence|].
  exists c. eexists. split; [|split; [reflexivity | exact H1]].
  rewrite G. unfold combinedInput. rewrite Q. reflexivity.
Qed.

(** X12. A question that is no string is rejected with the error
    [string_type] for [question]: the length constraint and
    [validate_question] see strings only. *)
Theorem question_wrong_type_rejected (cfg : ConfigDict) (d : dict) (v : value) :
  dict_get d (py "question") = Some v ->
  isinstance_str v = false ->
  exists errors, InferRequest_validate cfg d = Invalid errors
    /\ In {| loc := [py "question"]; type_ := string_type |} errors.
Proof.
  intros E T. apply InferRequest_question_error.
  rewrite (field_present _ _ _ _ _ _ E). cbn [snd].
  destruct v; try discriminate; reflexivity.
Qed.

End QuestionFacts.

(** * The further properties on concrete inputs *)

Section FurtherInstances.
Import Suid Pydantic Requests.

Lemma hex48_token_valid_witness :
  check_suid (unicode := ascii_only)
    (PyStr (py "0123456789abcdef0123456789ABCDEF0123456789abcdef")) = Return true
  /\ check_suid (unicode := ascii_only)
       (PyStr (to_llama_stack_conversation_id
                 (py "0123456789abcdef0123456789ABCDEF0123456789abcdef")))
     = Return true.
Proof.
  apply (hex48_token_valid (unicode := ascii_only)
           (py "0123456789abcdef0123456789ABCDEF0123456789abcdef"));
    reflexivity.
Defined.

Lemma hex_digits_other_length_invalid_witness :
  check_suid (unicode := ascii_only)
    (PyStr (py "0123456789abcdef0123456789abcdef0123456789abcde")) = Return false.
Proof.
  apply (hex_digits_other_length_invalid (unicode := ascii_only)
           (py "0123456789abcdef0123456789abcdef0123456789abcde"));
    [reflexivity | |]; intros E; vm_compute in E; discriminate E.
Defined.

Lemma valid_prefixed_length_witness :
  length (py "conv_0123456789abcdef0123456789abcdef0123456789abcdef") = 53%nat
  /\ length (normalize_conversation_id
               (py "conv_0123456789abcdef0123456789abcdef0123456789abcdef")) = 48%nat
  /\ returns (Py.int_16 (unicode := ascii_only)
                (normalize_conversation_id
                   (py "conv_0123456789abcdef0123456789abcdef0123456789abcdef")))
     = true.
Proof.
  apply (valid_prefixed_length (unicode := ascii_only)
           (py "conv_0123456789abcdef0123456789abcdef0123456789abcdef"));
    vm_compute; reflexivity.
Defined.

Lemma valid_identifier_min_length_witness :
  (32 <= length (py "550e8400e29b41d4a716446655440000"))%nat.
Proof.
  apply (valid_identifier_min_length (unicode := ascii_only)
           (py "550e8400e29b41d4a716446655440000")).
  vm_compute. reflexivity.
Defined.

Lemma to_llama_stack_validity_witness :
  check_suid (unicode := ascii_only)
    (PyStr (to_llama_stack_conversation_id
              (py "550e8400-e29b-41d4-a716-446655440000"))) = Return false.
Proof.
  destruct (to_llama_stack_validity (unicode := ascii_only)
              (py "550e8400-e29b-41d4-a716-446655440000")) as [_ H].
  - vm_compute. reflexivity.
  - apply H. reflexivity.
Defined.

Lemma conversions_compose_witness :
  to_llama_stack_conversation_id
    (normalize_conversation_id
       (py "conv_0123456789abcdef0123456789abcdef0123456789abcdef"))
  = to_llama_stack_conversation_id
      (py "conv_0123456789abcdef0123456789abcdef0123456789abcdef").
Proof.
  destruct (conversions_compose (unicode := ascii_only)) as [_ H].
  apply H. vm_compute. reflexivity.
Defined.

Lemma path_48_decides_witness :
  returns (Uuid.UUID_of_hex (unicode := ascii_only)
             (py "5-5-0-e-8-4-0-0-e-2-9-b-4-1-d-4-a716446655440000")) = true
  /\ check_suid (unicode := ascii_only)
       (PyStr (py "5-5-0-e-8-4-0-0-e-2-9-b-4-1-d-4-a716446655440000"))
     = Return (returns (Py.int_16 (unicode := ascii_only)
                          (normalize_conversation_id
                             (py "5-5-0-e-8-4-0-0-e-2-9-b-4-1-d-4-a716446655440000"))))
  /\ returns (Py.int_16 (unicode := ascii_only)
                (normalize_conversation_id
                   (py "5-5-0-e-8-4-0-0-e-2-9-b-4-1-d-4-a716446655440000"))) = false.
Proof.
  split; [vm_compute; reflexivity|]. split; [|vm_compute; reflexivity].
  apply (path_48_decides (unicode := ascii_only)
           (py "5-5-0-e-8-4-0-0-e-2-9-b-4-1-d-4-a716446655440000")).
  reflexivity.
Defined.

Lemma uuid_text_round_trip_witness :
  Uuid.UUID_of_hex (unicode := ascii_only)
    (Uuid.to_str {| Uuid.int := 0x550e8400e29b41d4a716446655440000 |})
  = Return {| Uuid.int := 0x550e8400e29b41d4a716446655440000 |}.
Proof.
  apply (uuid_text_round_trip (unicode := ascii_only)
           {| Uuid.int := 0x550e8400e29b41d4a716446655440000 |}).
  cbn [Uuid.int]. split; [discriminate | reflexivity].
Defined.

Lemma get_suid_parses_back_witness :
  exists u s,
    Uuid.uuid4 [x55; x0e; x84; x00; xe2; x9b; xf1; xd4;
                x27; x16; x44; x66; x55; x44; x00; x00] = Return u
    /\ get_suid [x55; x0e; x84; x00; xe2; x9b; xf1; xd4;
                 x27; x16; x44; x66; x55; x44; x00; x00] = Return s
    /\ Uuid.UUID_of_hex (unicode := ascii_only) s = Return u
    /\ (forall urandom', length urandom' = 16%nat ->
          get_suid urandom' = Return s -> Uuid.uuid4 urandom' = Return u).
Proof.
  apply (get_suid_parses_back (unicode := ascii_only)
           [x55; x0e; x84; x00; xe2; x9b; xf1; xd4;
            x27; x16; x44; x66; x55; x44; x00; x00]).
  reflexivity.
Defined.

Lemma urn_and_braces_accepted_witness :
  check_suid (unicode := ascii_only)
    (PyStr (py "urn:uuid:" ++ py "550e8400-e29b-41d4-a716-446655440000"))
  = Return true
  /\ check_suid (unicode := ascii_only)
       (PyStr (py "{" ++ py "550e8400-e29b-41d4-a716-446655440000" ++ py "}"))
     = Return true.
Proof.
  apply (urn_and_braces_accepted (unicode := ascii_only)
           (py "550e8400-e29b-41d4-a716-446655440000")).
  reflexivity.
Defined.

Lemma validate_question_trims_witness :
  validate_question (py "How do I list files?") = Return (py "How do I list files?").
Proof.
  destruct validate_question_trims as [_ H].
  destruct (H (py "  How do I list files? ") (py "How do I list files?"))
    as (_ & _ & _ & _ & E); [reflexivity | exact E].
Defined.

Lemma constructed_question_trimmed_witness :
  question {| question := py "How do I list files?"; context := Context_default;
              skip_rag := false |} <> []
  /\ Py.strip (py "How do I list files?") = py "How do I list files?".
Proof.
  destruct (constructed_question_trimmed pydantic_defaults
              [(py "question", PyStr (py "  How do I list files? "))]
              {| question := py "How do I list files?"; context := Context_default;
                 skip_rag := false |})
    as (H1 & H2 & _); [reflexivity | split; [exact H1 | exact H2]].
Defined.

Lemma question_wrong_type_rejected_witness :
  exists errors,
    InferRequest_validate pydantic_defaults [(py "question", PyInt 42)]
    = Invalid errors
    /\ In {| loc := [py "question"]; type_ := string_type |} errors.
Proof.
  apply (question_wrong_type_rejected pydantic_defaults
           [(py "question", PyInt 42)] (PyInt 42)); reflexivity.
Defined.

End FurtherInstances.
